(** * aui-tts-piper: the Piper adapter and its synchronous stub

    A shallow embedding of [src/aui_tts_piper.py] (the asynchronous adapter)
    and [src/aui_adapter_tts_piper.py] (the synchronous stub), followed by the
    properties of the specification that were checked against them.

    Conventions.
    - A Python call that may raise returns an [outcome]: [Returned v] or
      [Raised e].
    - A method that mutates [self] or calls out of the module returns a
      [run]: the outcome, the receiver afterwards and the list of calls that
      left the module, oldest first.
    - Python's [int] is [Z]; [bytes] is [list byte]; [str] is [string] (the
      UTF-8 bytes of the text). *)

From Stdlib Require Import ZArith Lia List String Ascii Bool.
From Stdlib Require Import Strings.Byte.
From stdpp Require Import gmap strings.
Import ListNotations.

Local Open Scope string_scope.
Local Open Scope Z_scope.

(** ** Python exceptions *)

Module Py.

(** The exception classes that occur in the two modules or can reach their
    [except Exception] clauses.  [KeyboardInterrupt], [SystemExit],
    [GeneratorExit] and [asyncio.CancelledError] derive from
    [BaseException] only. *)
Inductive exc_class : Type :=
| RuntimeError
| OverflowError
| ImportError
| ModuleNotFoundError
| AttributeError
| TypeError
| ValueError
| KeyError
| KeyboardInterrupt
| SystemExit
| GeneratorExit
| CancelledError.

Record exn : Type := Exn { exn_class : exc_class; exn_msg : string }.

(** [isinstance(e, Exception)], the test of an [except Exception] clause. *)
Definition is_Exception (e : exn) : bool :=
  match exn_class e with
  | KeyboardInterrupt | SystemExit | GeneratorExit | CancelledError => false
  | _ => true
  end.

Inductive outcome (A : Type) : Type :=
| Returned (a : A)
| Raised (e : exn).
Arguments Returned {A} a.
Arguments Raised {A} e.

Definition bind {A B : Type} (c : outcome A) (k : A -> outcome B) : outcome B :=
  match c with
  | Returned a => k a
  | Raised e => Raised e
  end.

Definition returns {A : Type} (c : outcome A) : bool :=
  match c with Returned _ => true | Raised _ => false end.

(** Whatever [c] raises is an instance of [Exception]. *)
Definition raises_only_Exception {A : Type} (c : outcome A) : Prop :=
  match c with Returned _ => True | Raised e => is_Exception e = true end.

(** [try: body / except Exception: handler]: an exception that is not an
    [Exception] passes through the clause. *)
Definition try_except_Exception {A : Type} (body : outcome A) (handler : outcome A) : outcome A :=
  match body with
  | Returned a => Returned a
  | Raised e => if is_Exception e then handler else Raised e
  end.

(** [needle] occurs in [hay]. *)
Definition occurs_in (needle hay : string) : Prop :=
  exists pre post : string, hay = (pre ++ needle ++ post)%string.

End Py.
Export Py.

Notation "'call!' x ':=' c 'in' k" := (Py.bind c (fun x => k))
  (at level 10, x name, c at level 100, k at level 200).

(** ** The float arithmetic of [int(self._rate * 0.1)]

    CPython evaluates [self._rate * 0.1] in IEEE 754 binary64: the integer is
    converted to the nearest double (ties to even, [OverflowError] when that
    would be infinite), the product with the double [0.1] is rounded the same
    way, and [int()] truncates toward zero.  A finite double is kept as a
    signed integer mantissa and a binary exponent; the mantissa has at most
    53 bits after every rounding. *)

Module Binary64.

Record float : Type := Float { mant : Z; expo : Z }.

(** [n / 2^s] rounded to the nearest integer, ties to the even one. *)
Definition round_half_even (n s : Z) : Z :=
  let q := n / 2 ^ s in
  let r := n mod 2 ^ s in
  let h := 2 ^ (s - 1) in
  if r <? h then q
  else if h <? r then q + 1
  else if Z.even q then q else q + 1.

(** The magnitude [n >= 0] rounded to 53 significant bits. *)
Definition round53 (n : Z) : Z * Z :=
  let bits := Z.log2 n + 1 in
  if bits <=? 53 then (n, 0)
  else let s := bits - 53 in (round_half_even n s, s).

(** The double [0.1] is [3602879701896397 * 2^-55]. *)
Definition tenth_mant : Z := 3602879701896397.
Definition tenth_expo : Z := -55.

Definition overflow_msg : string := "int too large to convert to float".

(** Implicit conversion of the [int] operand of [int * float]. *)
Definition float_of_int (r : Z) : outcome float :=
  let '(m, e) := round53 (Z.abs r) in
  if 2 ^ 1024 <=? m * 2 ^ e
  then Raised (Exn OverflowError overflow_msg)
  else Returned (Float (Z.sgn r * m) e).

(** [x * 0.1].  The product is smaller in magnitude than [x] and, for
    [x <> 0] an integer, at least [0.1]: it neither overflows nor falls in
    the subnormal range, so rounding to 53 bits is all that happens. *)
Definition mul_tenth (x : float) : float :=
  let p := Z.abs (mant x) * tenth_mant in
  let '(m, e) := round53 p in
  Float (Z.sgn (mant x) * m) (e + expo x + tenth_expo).

(** [int(x)]: truncation toward zero. *)
Definition int_of_float (x : float) : Z :=
  if 0 <=? expo x then mant x * 2 ^ expo x
  else Z.quot (mant x) (2 ^ (- expo x)).

(** [int(r * 0.1)] for an [int] [r]. *)
Definition int_mul_tenth (r : Z) : outcome Z :=
  call! x := float_of_int r in
  Returned (int_of_float (mul_tenth x)).

End Binary64.

(** ** [bytes] *)

(** The largest [Py_ssize_t] of a 64-bit CPython. *)
Definition ssize_max : Z := 2 ^ 63 - 1.

Definition index_msg : string := "cannot fit 'int' into an index-sized integer".
Definition too_long_msg : string := "repeated bytes are too long".

(** [pat * n] on [bytes]: the count must fit a [Py_ssize_t], a count below
    1 gives no bytes, and the length of the result must fit a [Py_ssize_t]
    too ([len(pat) > ssize_max // n] is the test of [bytes_repeat]).
    Running out of memory for a length that fits is not modelled. *)
Definition bytes_mul (pat : list byte) (n : Z) : outcome (list byte) :=
  if (n <? - 2 ^ 63) || (ssize_max <? n)
  then Raised (Exn OverflowError index_msg)
  else if n <=? 0 then Returned []
  else if ssize_max / n <? Z.of_nat (length pat)
  then Raised (Exn OverflowError too_long_msg)
  else Returned (concat (repeat pat (Z.to_nat n))).

(** ** [src/aui_adapter_tts_piper.py]: the synchronous stub *)

Module Stub.

Record PiperTTS : Type := { _speaking : bool }.

Definition __init__ : PiperTTS := {| _speaking := false |}.

(** A method returns the receiver afterwards and the texts it printed, one
    entry for each [print] call. *)
Definition say (text : string) (self : PiperTTS) : PiperTTS * list string :=
  ({| _speaking := true |}, ["[Piper] say: " ++ text]%string).

Definition stop (self : PiperTTS) : PiperTTS * list string :=
  let printed := if _speaking self then ["[Piper] stop"] else [] in
  ({| _speaking := false |}, printed).

End Stub.

(** ** [src/aui_tts_piper.py]: the asynchronous adapter *)

Module Adapter.

(** *** Collaborators outside the repository *)

(** Modelled from the spec: [auicommon.audio.types.PcmAudio], a byte buffer
    of raw samples with its sample rate, channel count and sample width in
    bytes. *)
Record PcmAudio : Type := { data : list byte; rate : Z; channels : Z; width : Z }.

(** The cancellation token is opaque to the adapter. *)
Record CancellationToken : Type := { is_cancelled : bool }.

(** Values of the extra keyword arguments. *)
Inductive Any : Type :=
| AnyNone
| AnyBool (b : bool)
| AnyInt (z : Z)
| AnyStr (s : string).

(** The handle of a loaded engine; the placeholder never creates one. *)
Inductive Engine : Type := EngineHandle (model voice : option string).

(** What [importlib.util.find_spec] answers: a module spec or [None].  It
    may also raise, as it does with [ValueError] for an entry of
    [sys.modules] that has no [__spec__]. *)
Record ModuleSpec : Type := { spec_name : string; spec_origin : option string }.

(** The module globals bound by the optional import of lines 9-13. *)
Record Globals : Type := {
  normalize_to_canon : option (PcmAudio -> outcome PcmAudio);
  CANON_FORMAT : option PcmAudio
}.

(** *** The class *)

Record PiperTTS : Type := {
  _model : option string;
  _voice : option string;
  _rate : Z;
  _engine : option Engine;
  _stopped : bool;
  _kw : gmap string Any
}.

Definition default_sample_rate : Z := 22050.

Definition __init__ (model voice : option string) (sample_rate : Z)
    (kwargs : gmap string Any) : PiperTTS :=
  {| _model := model; _voice := voice; _rate := sample_rate;
     _engine := None; _stopped := false; _kw := kwargs |}.

(** [self._stopped = b] *)
Definition set_stopped (b : bool) (self : PiperTTS) : PiperTTS :=
  {| _model := _model self; _voice := _voice self; _rate := _rate self;
     _engine := _engine self; _stopped := b; _kw := _kw self |}.

(** Calls that leave the coroutine.  A [to_thread] entry records the
    receiver as the blocking routine finds it when it starts.  [sink_play]
    is the playback primitive of the core's audio sink. *)
Inductive call : Type :=
| to_thread_init (seen : PiperTTS)
| to_thread_synth (seen : PiperTTS) (text : string) (cancel : option CancellationToken)
| normalize_call (pcm : PcmAudio)
| sink_play (pcm : PcmAudio).

Definition is_sink_play (c : call) : bool :=
  match c with sink_play _ => true | _ => false end.

Definition run (A : Type) : Type := outcome A * PiperTTS * list call.

Definition result {A : Type} (r : run A) : outcome A := fst (fst r).
Definition after {A : Type} (r : run A) : PiperTTS := snd (fst r).
Definition calls {A : Type} (r : run A) : list call := snd r.

(** *** Internal, blocking *)

Definition _init_blocking (self : PiperTTS) : PiperTTS := self.

Definition _synth_blocking (self : PiperTTS) (text : string)
    (cancel : option CancellationToken) : outcome PcmAudio :=
  if _stopped self then
    Returned {| data := []; rate := _rate self; channels := 1; width := 2 |}
  else
    call! n_samples := Binary64.int_mul_tenth (_rate self) in
    call! silence := bytes_mul [x00; x00]%byte n_samples in
    Returned {| data := silence; rate := _rate self; channels := 1; width := 2 |}.

(** *** Runtime check *)

Definition candidates : list string := ["piper"; "piper_tts"; "piper-tts"].

Definition newline : string := String "010"%char EmptyString.

(** The three adjacent literals of lines 113-115. *)
Definition msg_what : string :=
  "Piper-TTS ist nicht installiert. Bitte separat installieren, z. B.:".
Definition msg_install : string := "  pip install piper-tts".
Definition msg_licence : string :=
  "Achtung: Piper steht unter GPLv3; die Nutzung kann GPL-Pflichten auslösen.".

Definition not_installed_msg : string :=
  (msg_what ++ newline ++ msg_install ++ newline ++ msg_licence)%string.

Definition not_installed : exn := Exn RuntimeError not_installed_msg.

(** [any(find_spec(n) for n in names)]: the names are probed in order, the
    first spec found ends the search (a spec is truthy), and what a probe
    raises ends it too. *)
Fixpoint any_spec (find_spec : string -> outcome (option ModuleSpec))
    (names : list string) : outcome bool :=
  match names with
  | [] => Returned false
  | n :: rest =>
      call! spec := find_spec n in
      match spec with
      | Some _ => Returned true
      | None => any_spec find_spec rest
      end
  end.

(** [any(find_spec(n) for n in candidates if isinstance(n, str))]; every
    candidate is a [str], so the filter keeps all three. *)
Definition any_candidate (find_spec : string -> outcome (option ModuleSpec)) : outcome bool :=
  any_spec find_spec candidates.

Definition _require_piper (find_spec : string -> outcome (option ModuleSpec)) : outcome unit :=
  call! found := any_candidate find_spec in
  if negb found then Raised not_installed else Returned tt.

(** *** Public API

    [await asyncio.to_thread(f)] suspends the coroutine: before the worker
    thread enters [f], other tasks may call into the same adapter.  Only
    their writes of the stop flag matter here: [other_stop] is a [stop()],
    [other_synth] the start of another [synth()] (which clears the flag). *)

Inductive other_task : Type := other_stop | other_synth.

Definition interfere (t : other_task) (self : PiperTTS) : PiperTTS :=
  match t with
  | other_stop => set_stopped true self
  | other_synth => set_stopped false self
  end.

Definition interleave (between : list other_task) (self : PiperTTS) : PiperTTS :=
  fold_left (fun s t => interfere t s) between self.

Definition preload (find_spec : string -> outcome (option ModuleSpec)) (self : PiperTTS) : run unit :=
  match _require_piper find_spec with
  | Raised e => (Raised e, self, [])
  | Returned _ => (Returned tt, _init_blocking self, [to_thread_init self])
  end.

(** [between] lists what other tasks did to the adapter after line 52 and
    before the worker thread read the flag; [[]] is a sequential run. *)
Definition synth (find_spec : string -> outcome (option ModuleSpec)) (G : Globals)
    (between : list other_task) (text : string)
    (cancel : option CancellationToken) (self : PiperTTS) : run PcmAudio :=
  match _require_piper find_spec with
  | Raised e => (Raised e, self, [])
  | Returned _ =>
      let self := set_stopped false self in
      let seen := interleave between self in
      match _synth_blocking seen text cancel with
      | Raised e => (Raised e, seen, [to_thread_synth seen text cancel])
      | Returned pcm =>
          match normalize_to_canon G with
          | Some normalize =>
              (try_except_Exception (normalize pcm) (Returned pcm), seen,
               [to_thread_synth seen text cancel; normalize_call pcm])
          | None => (Returned pcm, seen, [to_thread_synth seen text cancel])
          end
      end
  end.

Definition say (find_spec : string -> outcome (option ModuleSpec)) (G : Globals)
    (between : list other_task) (text : string)
    (cancel : option CancellationToken) (self : PiperTTS) : run unit :=
  let '(r, self, calls) := synth find_spec G between text cancel self in
  (call! _ := r in Returned tt, self, calls).

Definition stop (self : PiperTTS) : run unit :=
  (Returned tt, set_stopped true self, []).

(** *** Loading the module *)

(** An entry of the core's registry: the lambda of lines 122 and 124, or
    somebody else's constructor. *)
Inductive ctor : Type := lambda_PiperTTS | foreign (label : string).

(** The object bound to [_f.REGISTRY]: a [dict], or something whose item
    assignment raises. *)
Inductive registry_obj : Type :=
| dict (m : gmap string ctor)
| no_setitem (e : exn).

Definition setitem (o : registry_obj) (k : string) (v : ctor) : outcome registry_obj :=
  match o with
  | dict m => Returned (dict (<[k := v]> m))
  | no_setitem e => Raised e
  end.

(** The module [auicore.services.tts.factory] as this file uses it: the
    attribute [register], a callable, and the attribute [REGISTRY].  What
    [register] does with a name and a constructor is the core's business:
    it returns, leaving the factory in some state, or it raises. *)
Local Unset Elimination Schemes.
Inductive Factory : Type := {
  register : option (string -> ctor -> outcome Factory);
  REGISTRY : option registry_obj
}.
Local Set Elimination Schemes.

(** What the three [from ... import ...] statements find. *)
Record Imports : Type := {
  import_types : outcome unit;
  import_convert : outcome ((PcmAudio -> outcome PcmAudio) * PcmAudio);
  import_factory : outcome Factory
}.

(** Lines 9-13. *)
Definition optional_convert (I : Imports) : outcome Globals :=
  try_except_Exception
    (call! fc := import_convert I in
     Returned {| normalize_to_canon := Some (fst fc); CANON_FORMAT := Some (snd fc) |})
    (Returned {| normalize_to_canon := None; CANON_FORMAT := None |}).

(** Lines 120-124, the body of the [try]; the result is the factory
    afterwards: as [register] left it, or with the item assigned. *)
Definition registration_body (I : Imports) : outcome (option Factory) :=
  call! _f := import_factory I in
  match register _f with
  | Some reg =>
      call! _f' := reg "piper" lambda_PiperTTS in
      Returned (Some _f')
  | None =>
      match REGISTRY _f with
      | Some o =>
          call! o' := setitem o "piper" lambda_PiperTTS in
          Returned (Some {| register := None; REGISTRY := Some o' |})
      | None => Returned (Some _f)
      end
  end.

(** Lines 119-126. *)
Definition registration (I : Imports) : outcome (option Factory) :=
  try_except_Exception (registration_body I) (Returned None).

(** [import aui_tts_piper]: the globals of the loaded module and the
    factory as registration left it. *)
Definition import_module (I : Imports) : outcome (Globals * option Factory) :=
  call! _ := import_types I in
  call! G := optional_convert I in
  call! F := registration I in
  Returned (G, F).

End Adapter.

(** ** Concrete environments used in the examples below *)

Module Scenario.
Import Adapter.

Definition nothing_installed : string -> outcome (option ModuleSpec) :=
  fun _ => Returned None.

Definition piper_installed : string -> outcome (option ModuleSpec) :=
  fun n => if String.eqb n "piper"
           then Returned (Some {| spec_name := "piper";
                                  spec_origin := Some "site-packages/piper/__init__.py" |})
           else Returned None.

(** [sys.modules] holds a "piper" without [__spec__], and "piper_tts" is
    installed. *)
Definition piper_without_spec : string -> outcome (option ModuleSpec) :=
  fun n => if String.eqb n "piper"
           then Raised (Exn ValueError "piper.__spec__ is None")
           else if String.eqb n "piper_tts"
           then Returned (Some {| spec_name := "piper_tts"; spec_origin := None |})
           else Returned None.

(** A hook that hands out two channels. *)
Definition stereo_hook (p : PcmAudio) : outcome PcmAudio :=
  Returned {| data := (data p ++ data p)%list; rate := rate p; channels := 2; width := 2 |}.

Definition interrupted_hook (p : PcmAudio) : outcome PcmAudio :=
  Raised (Exn KeyboardInterrupt "").

Definition canon_16k : PcmAudio :=
  {| data := []; rate := 16000; channels := 1; width := 2 |}.

(** A normaliser of the kind line 55 names (s16le/16kHz/mono), reduced to
    what matters for mono 16-bit input: it keeps the share of the frames
    that 16 kHz needs and relabels the rate. *)
Definition resample_16k (p : PcmAudio) : outcome PcmAudio :=
  let frames := Z.of_nat (length (data p)) / 2 in
  let kept := frames * 16000 / rate p in
  Returned {| data := firstn (Z.to_nat (2 * kept)) (data p);
              rate := 16000; channels := 1; width := 2 |}.

Definition failing_hook (p : PcmAudio) : outcome PcmAudio :=
  Raised (Exn ValueError "unsupported sample width").

Definition no_hook : Globals :=
  {| normalize_to_canon := None; CANON_FORMAT := None |}.
Definition hook_16k : Globals :=
  {| normalize_to_canon := Some resample_16k; CANON_FORMAT := Some canon_16k |}.
Definition hook_failing : Globals :=
  {| normalize_to_canon := Some failing_hook; CANON_FORMAT := Some canon_16k |}.
Definition hook_stereo : Globals :=
  {| normalize_to_canon := Some stereo_hook; CANON_FORMAT := Some canon_16k |}.
Definition hook_interrupted : Globals :=
  {| normalize_to_canon := Some interrupted_hook; CANON_FORMAT := Some canon_16k |}.

Definition adapter (sample_rate : Z) : PiperTTS := __init__ None None sample_rate ∅.

Definition no_auicommon : Imports :=
  {| import_types := Raised (Exn ModuleNotFoundError "No module named 'auicommon'");
     import_convert := Raised (Exn ModuleNotFoundError "No module named 'auicommon'");
     import_factory := Raised (Exn ModuleNotFoundError "No module named 'auicore'") |}.

Definition no_registry : Imports :=
  {| import_types := Returned tt;
     import_convert := Returned (resample_16k, canon_16k);
     import_factory := Raised (Exn ModuleNotFoundError "No module named 'auicore'") |}.

Definition with_registry (m : gmap string ctor) : Imports :=
  {| import_types := Returned tt;
     import_convert := Raised (Exn ImportError "cannot import name 'normalize_to_canon'");
     import_factory := Returned {| register := None; REGISTRY := Some (dict m) |} |}.

End Scenario.

(** ** Vocabulary of the statements *)

Module Statements.
Import Adapter.

(** The receiver as [_synth_blocking] finds it: the flag cleared by line
    52, then whatever other tasks did before the worker thread started. *)
Definition seen_by_routine (between : list other_task) (self : PiperTTS) : PiperTTS :=
  interleave between (set_stopped false self).

(** The value of line 91. *)
Definition empty_pcm (r : Z) : PcmAudio :=
  {| data := []; rate := r; channels := 1; width := 2 |}.

(** [n] zero samples of 16 bits. *)
Definition zero_samples (n : Z) : list byte :=
  concat (repeat [x00; x00]%byte (Z.to_nat n)).

(** A tenth of a second of 16-bit mono silence at [r] Hz: [r / 10]
    (rounded down) zero samples. *)
Definition silence_pcm (r : Z) : PcmAudio :=
  {| data := zero_samples (r / 10); rate := r; channels := 1; width := 2 |}.

(** Normalisation leaves [pcm] as it is: there is no hook, or the hook
    raises an [Exception] on [pcm]. *)
Definition hook_passes_through (G : Globals) (pcm : PcmAudio) : Prop :=
  match normalize_to_canon G with
  | None => True
  | Some normalize => exists e, normalize pcm = Raised e /\ is_Exception e = true
  end.

(** Modelled from the spec: the optional normalisation routine of
    [auicommon.audio.convert] converts to the canonical format (fixed sample
    rate, mono, 16-bit little-endian).  Of that the statements below use:
    what the hook returns is mono and 16 bits wide, and when it fails it
    fails with an [Exception]. *)
Definition hook_contract (G : Globals) : Prop :=
  forall normalize p, normalize_to_canon G = Some normalize ->
    match normalize p with
    | Returned q => channels q = 1 /\ width q = 2
    | Raised e => is_Exception e = true
    end.

(** The calls [synth(text, cancel)] may make: the blocking routine with
    that text and token, and the hook. *)
Definition made_by_synth (text : string) (cancel : option CancellationToken)
    (c : call) : Prop :=
  match c with
  | to_thread_synth _ t k => t = text /\ k = cancel
  | normalize_call _ => True
  | to_thread_init _ | sink_play _ => False
  end.

End Statements.

(** ** Sequences of calls *)

Module Session.
Import Adapter.

(** A caller's call on the adapter.  A caller that catches what a call
    raises carries on with the receiver as the call left it. *)
Inductive op : Type :=
| op_preload
| op_synth (between : list other_task) (text : string) (cancel : option CancellationToken)
| op_say (between : list other_task) (text : string) (cancel : option CancellationToken)
| op_stop.

Definition perform (find_spec : string -> outcome (option ModuleSpec)) (G : Globals)
    (o : op) (self : PiperTTS) : PiperTTS * list call :=
  match o with
  | op_preload => (after (preload find_spec self), calls (preload find_spec self))
  | op_synth b t c =>
      (after (synth find_spec G b t c self), calls (synth find_spec G b t c self))
  | op_say b t c =>
      (after (say find_spec G b t c self), calls (say find_spec G b t c self))
  | op_stop => (after (stop self), calls (stop self))
  end.

(** The receiver after the calls [ops], and every call that left the
    coroutines, oldest first. *)
Fixpoint session (find_spec : string -> outcome (option ModuleSpec)) (G : Globals)
    (ops : list op) (self : PiperTTS) : PiperTTS * list call :=
  match ops with
  | [] => (self, [])
  | o :: rest =>
      let '(s1, c1) := perform find_spec G o self in
      let '(s2, c2) := session find_spec G rest s1 in
      (s2, (c1 ++ c2)%list)
  end.

Definition is_init_call (c : call) : bool :=
  match c with to_thread_init _ => true | _ => false end.

(** A caller's call on the synchronous stub. *)
Inductive stub_op : Type :=
| stub_say (text : string)
| stub_stop.

Definition stub_perform (o : stub_op) (self : Stub.PiperTTS) : Stub.PiperTTS * list string :=
  match o with
  | stub_say text => Stub.say text self
  | stub_stop => Stub.stop self
  end.

(** The stub after the calls [ops], and everything printed. *)
Fixpoint stub_session (ops : list stub_op) (self : Stub.PiperTTS)
    : Stub.PiperTTS * list string :=
  match ops with
  | [] => (self, [])
  | o :: rest =>
      let '(s1, l1) := stub_perform o self in
      let '(s2, l2) := stub_session rest s1 in
      (s2, (l1 ++ l2)%list)
  end.

Definition is_stub_say (o : stub_op) : bool :=
  match o with stub_say _ => true | stub_stop => false end.

(** How many of the [print] calls are the notification of [stop].  An
    entry of [printed] is the text of one [print] call, which a newline in
    a [say] text spreads over several lines of the output; the text of a
    [say] call starts with "[Piper] say: " and is never the notification. *)
Definition stop_notices (printed : list string) : nat :=
  count_occ string_dec printed "[Piper] stop".

(** How many of the calls [ops] are [say]. *)
Definition say_count (ops : list stub_op) : nat :=
  length (List.filter is_stub_say ops).

Definition flag_weight (b : bool) : nat := if b then 1%nat else 0%nat.

(** The flag an interfering task writes. *)
Definition flag_written (t : other_task) : bool :=
  match t with other_stop => true | other_synth => false end.

End Session.

(** * Properties *)

Example int_mul_tenth_22050 : Binary64.int_mul_tenth 22050 = Returned 2205.
Proof. vm_compute. reflexivity. Qed.

Example int_mul_tenth_22055 : Binary64.int_mul_tenth 22055 = Returned 2205.
Proof. vm_compute. reflexivity. Qed.

Example int_mul_tenth_3 : Binary64.int_mul_tenth 3 = Returned 0.
Proof. vm_compute. reflexivity. Qed.

Example int_mul_tenth_neg : Binary64.int_mul_tenth (-25) = Returned (-2).
Proof. vm_compute. reflexivity. Qed.

Example int_mul_tenth_huge : Binary64.int_mul_tenth (2 ^ 1024) = Raised (Exn OverflowError Binary64.overflow_msg).
Proof. vm_compute. reflexivity. Qed.

(** ** The sample count [int(rate * 0.1)] *)

Module Binary64Facts.
Import Binary64.

Lemma pow2_split (s : Z) : 0 <= s <= 55 -> 2 ^ s * 2 ^ (55 - s) = 2 ^ 55.
Proof. intros H. rewrite <- Z.pow_add_r by lia. f_equal. lia. Qed.

Lemma round_half_even_cases (n s : Z) :
  round_half_even n s = n / 2 ^ s \/ round_half_even n s = n / 2 ^ s + 1.
Proof.
  unfold round_half_even.
  destruct (_ <? _); [now left|].
  destruct (_ <? _); [now right|].
  destruct (Z.even _); [now left | now right].
Qed.

(** Below [2^53] an integer is a double. *)
Lemma round53_small (n : Z) : 0 <= n < 2 ^ 53 -> round53 n = (n, 0).
Proof.
  intros Hn. unfold round53.
  assert (Z.log2 n < 53).
  { destruct (Z.eq_dec n 0) as [->|]; [reflexivity|].
    apply Z.log2_lt_pow2; lia. }
  destruct (Z.leb_spec (Z.log2 n + 1) 53); [reflexivity | lia].
Qed.

Lemma float_of_int_small (r : Z) :
  0 <= r < 2 ^ 53 -> float_of_int r = Returned (Float r 0).
Proof.
  intros Hr. unfold float_of_int.
  rewrite Z.abs_eq by lia. rewrite round53_small by assumption.
  assert (Hlt : r * 2 ^ 0 < 2 ^ 1024).
  { rewrite Z.pow_0_r, Z.mul_1_r.
    apply Z.lt_le_trans with (2 ^ 53); [lia|].
    apply Z.pow_le_mono_r; lia. }
  destruct (Z.leb_spec (2 ^ 1024) (r * 2 ^ 0)); [lia|].
  f_equal. f_equal.
  destruct (Z.eq_dec r 0) as [->|]; [reflexivity|].
  rewrite Z.sgn_pos by lia. lia.
Qed.

(** The rounded product, cut at the binary point, is the tenth of [r]
    rounded down: the error of [0.1] and of the rounding ([2^s] at most)
    stay below the distance of [r * 0.1] to the next integer. *)
Lemma trunc_tenth (r s m : Z) :
  0 <= r < 2 ^ 52 -> 0 <= s <= 51 ->
  m = r * tenth_mant / 2 ^ s \/ m = r * tenth_mant / 2 ^ s + 1 ->
  m / 2 ^ (55 - s) = r / 10.
Proof.
  intros Hr Hs Hm.
  pose proof (pow2_split s ltac:(lia)) as Htu.
  assert (Ht : 0 < 2 ^ s) by (apply Z.pow_pos_nonneg; lia).
  assert (Hu : 0 < 2 ^ (55 - s)) by (apply Z.pow_pos_nonneg; lia).
  assert (Htop : 2 ^ s <= 2 ^ 51) by (apply Z.pow_le_mono_r; lia).
  set (t := 2 ^ s) in *. set (u := 2 ^ (55 - s)) in *.
  pose proof (Z.div_mod r 10 ltac:(lia)) as Hdm.
  pose proof (Z.mod_pos_bound r 10 ltac:(lia)) as Hj.
  set (k := r / 10) in *. set (j := r mod 10) in *.
  pose proof (Z.div_mod (r * tenth_mant) t ltac:(lia)) as Hq.
  pose proof (Z.mod_pos_bound (r * tenth_mant) t ltac:(lia)) as Hrem.
  set (q := r * tenth_mant / t) in *. set (rem := (r * tenth_mant) mod t) in *.
  unfold tenth_mant in *.
  change (2 ^ 55) with 36028797018963968 in Htu.
  change (2 ^ 52) with 4503599627370496 in Hr.
  change (2 ^ 51) with 2251799813685248 in Htop.
  assert (Hlow : k * u <= q).
  { assert (H : t * (k * u) < t * (q + 1)) by nia.
    apply Z.mul_lt_mono_pos_l in H; lia. }
  assert (Hhigh : q + 1 < (k + 1) * u).
  { assert (H : t * (q + 1) < t * ((k + 1) * u)) by nia.
    apply Z.mul_lt_mono_pos_l in H; lia. }
  symmetry. apply Z.div_unique with (m - k * u).
  - left. lia.
  - lia.
Qed.

Lemma int_mul_tenth_floor (r : Z) :
  0 <= r < 2 ^ 52 -> int_mul_tenth r = Returned (r / 10).
Proof.
  intros Hr. unfold int_mul_tenth.
  rewrite float_of_int_small.
  2:{ split; [lia|]. apply Z.lt_le_trans with (2 ^ 52); [lia|].
      apply Z.pow_le_mono_r; lia. }
  cbn [Py.bind]. f_equal.
  destruct (Z.eq_dec r 0) as [->|Hnz]; [reflexivity|].
  unfold mul_tenth, int_of_float. cbn [mant expo].
  rewrite Z.abs_eq, Z.sgn_pos by lia.
  assert (Hp : 0 < r * tenth_mant < 2 ^ 104).
  { unfold tenth_mant. change (2 ^ 104) with (2 ^ 52 * 2 ^ 52).
    change (2 ^ 52) with 4503599627370496. nia. }
  unfold round53.
  destruct (Z.leb_spec (Z.log2 (r * tenth_mant) + 1) 53) as [Hb|Hb].
  - cbn [mant expo]. change (0 + 0 + tenth_expo) with (-55).
    change (0 <=? -55) with false. cbv iota.
    rewrite Z.mul_1_l, Z.quot_div_nonneg by lia.
    change (- -55) with (55 - 0).
    apply trunc_tenth; [assumption | lia |].
    left. rewrite Z.pow_0_r, Z.div_1_r. reflexivity.
  - set (s := Z.log2 (r * tenth_mant) + 1 - 53) in *.
    assert (Hs : 1 <= s <= 51).
    { assert (Z.log2 (r * tenth_mant) < 104) by (apply Z.log2_lt_pow2; lia).
      unfold s. lia. }
    cbn [mant expo]. unfold tenth_expo.
    destruct (Z.leb_spec 0 (s + 0 + -55)); [lia|].
    pose proof (round_half_even_cases (r * tenth_mant) s) as Hm.
    assert (0 <= r * tenth_mant / 2 ^ s).
    { apply Z.div_pos; [lia|]. apply Z.pow_pos_nonneg; lia. }
    rewrite Z.mul_1_l, Z.quot_div_nonneg.
    + replace (- (s + 0 + -55)) with (55 - s) by lia.
      apply trunc_tenth; [assumption | lia | assumption].
    + lia.
    + apply Z.pow_pos_nonneg; lia.
Qed.

(** Every integer below [2^1023] in magnitude converts. *)
Lemma float_of_int_returns_below (r : Z) :
  Z.abs r < 2 ^ 1023 -> returns (float_of_int r) = true.
Proof.
  intros Hr. unfold float_of_int.
  pose proof (Z.abs_nonneg r) as Hn. set (n := Z.abs r) in *.
  assert (Hbound : forall m e, round53 n = (m, e) -> m * 2 ^ e < 2 ^ 1024);
    [|destruct (round53 n) as [m e] eqn:E; specialize (Hbound m e eq_refl);
      destruct (Z.leb_spec (2 ^ 1024) (m * 2 ^ e)); [lia | reflexivity]].
  assert (Htop : 2 ^ 1023 < 2 ^ 1024) by (apply Z.pow_lt_mono_r; lia).
  intros m e. unfold round53.
  destruct (Z.leb_spec (Z.log2 n + 1) 53) as [Hb|Hb].
  - intros [= <- <-]. rewrite Z.pow_0_r. lia.
  - intros [= <- <-]. set (s := Z.log2 n + 1 - 53).
    assert (Hpos : 0 < n).
    { destruct (Z.eq_dec n 0) as [E0|]; [rewrite E0 in Hb; cbn in Hb|]; lia. }
    assert (Hs : 1 <= s) by (unfold s; lia).
    assert (Hlog : Z.log2 n < 1023) by (apply Z.log2_lt_pow2; assumption).
    assert (Ht : 0 < 2 ^ s) by (apply Z.pow_pos_nonneg; lia).
    assert (Hq : n / 2 ^ s < 2 ^ 53).
    { apply Z.div_lt_upper_bound; [assumption|].
      rewrite <- Z.pow_add_r by lia.
      replace (s + 53) with (Z.succ (Z.log2 n)) by (unfold s; lia).
      apply (Z.log2_spec n Hpos). }
    assert (Hm : round_half_even n s <= 2 ^ 53)
      by (destruct (round_half_even_cases n s) as [-> | ->]; lia).
    apply Z.le_lt_trans with (2 ^ 53 * 2 ^ s).
    + apply Z.mul_le_mono_nonneg_r; lia.
    + rewrite <- Z.pow_add_r by lia.
      apply Z.le_lt_trans with (2 ^ 1023); [|assumption].
      apply Z.pow_le_mono_r; unfold s; lia.
Qed.

(** The only exception of the product is the overflow of the conversion. *)
Lemma int_mul_tenth_raises (r : Z) (e : exn) :
  int_mul_tenth r = Raised e -> e = Exn OverflowError overflow_msg.
Proof.
  unfold int_mul_tenth, float_of_int.
  destruct (round53 (Z.abs r)) as [m ex].
  destruct (2 ^ 1024 <=? m * 2 ^ ex); cbn [Py.bind]; congruence.
Qed.

End Binary64Facts.

(** ** The sample count for every rate *)

Module Binary64More.
Import Binary64 Binary64Facts.

(** The mantissa and exponent of [n * 0.1] for a positive [n] below
    [2^52]: the exponent lies left of the binary point and the integer part
    is [n / 10]. *)
Lemma round53_tenth (n m e : Z) :
  0 < n < 2 ^ 52 -> round53 (n * tenth_mant) = (m, e) ->
  0 <= m /\ 0 <= e <= 51 /\ m / 2 ^ (55 - e) = n / 10.
Proof.
  intros Hn.
  assert (Hp : 0 < n * tenth_mant < 2 ^ 104).
  { unfold tenth_mant. change (2 ^ 104) with (2 ^ 52 * 2 ^ 52).
    change (2 ^ 52) with 4503599627370496 in *. nia. }
  unfold round53.
  destruct (Z.leb_spec (Z.log2 (n * tenth_mant) + 1) 53) as [Hb|Hb].
  - intros [= <- <-]. split; [lia|]. split; [lia|].
    apply trunc_tenth; [lia | lia |].
    left. rewrite Z.pow_0_r, Z.div_1_r. reflexivity.
  - intros [= <- <-].
    set (s := Z.log2 (n * tenth_mant) + 1 - 53) in *.
    assert (Hs : 1 <= s <= 51).
    { assert (Z.log2 (n * tenth_mant) < 104) by (apply Z.log2_lt_pow2; lia).
      unfold s. lia. }
    assert (0 <= n * tenth_mant / 2 ^ s).
    { apply Z.div_pos; [lia|]. apply Z.pow_pos_nonneg; lia. }
    pose proof (round_half_even_cases (n * tenth_mant) s) as Hm.
    split; [lia|]. split; [lia|].
    apply trunc_tenth; [lia | lia | assumption].
Qed.

(** [int(r * 0.1)] cuts toward zero: it is [r] quot 10 for every [r] of
    magnitude below [2^52], negative ones included. *)
Lemma int_mul_tenth_quot (r : Z) :
  Z.abs r < 2 ^ 52 -> int_mul_tenth r = Returned (Z.quot r 10).
Proof.
  intros Hr. destruct (Z.le_gt_cases 0 r) as [Hpos|Hneg].
  - rewrite int_mul_tenth_floor by lia.
    rewrite Z.quot_div_nonneg by lia. reflexivity.
  - assert (Hn : 0 < - r < 2 ^ 52) by lia.
    unfold int_mul_tenth, float_of_int.
    rewrite Z.abs_neq by lia. rewrite round53_small.
    2:{ split; [lia|]. apply Z.lt_le_trans with (2 ^ 52); [lia|].
        apply Z.pow_le_mono_r; lia. }
    assert (Hlt : - r * 2 ^ 0 < 2 ^ 1024).
    { rewrite Z.pow_0_r, Z.mul_1_r.
      apply Z.lt_le_trans with (2 ^ 52); [lia|]. apply Z.pow_le_mono_r; lia. }
    destruct (Z.leb_spec (2 ^ 1024) (- r * 2 ^ 0)); [lia|].
    cbn [Py.bind]. f_equal.
    unfold mul_tenth, int_of_float. cbn [mant expo].
    rewrite Z.sgn_neg by lia.
    replace (Z.abs (-1 * - r)) with (- r) by lia.
    rewrite Z.sgn_neg by lia.
    destruct (round53 (- r * tenth_mant)) as [m e] eqn:E.
    destruct (round53_tenth (- r) m e Hn E) as (Hm & He & Hdiv).
    cbn [mant expo]. unfold tenth_expo.
    destruct (Z.leb_spec 0 (e + 0 + -55)); [lia|].
    replace (- (e + 0 + -55)) with (55 - e) by lia.
    assert (Hd : 0 < 2 ^ (55 - e)) by (apply Z.pow_pos_nonneg; lia).
    replace (-1 * m) with (- m) by lia.
    rewrite Z.quot_opp_l by lia.
    rewrite Z.quot_div_nonneg by lia. rewrite Hdiv.
    replace r with (- - r) at 2 by lia.
    rewrite Z.quot_opp_l by lia.
    rewrite Z.quot_div_nonneg by lia. reflexivity.
Qed.

(** From [2^1024] on, the conversion of the [int] operand overflows. *)
Lemma float_of_int_overflows (r : Z) :
  2 ^ 1024 <= Z.abs r ->
  float_of_int r = Raised (Exn OverflowError overflow_msg).
Proof.
  intros Hr. unfold float_of_int. set (n := Z.abs r) in *.
  assert (Hpos : 0 < n).
  { apply Z.lt_le_trans with (2 ^ 1024); [apply Z.pow_pos_nonneg; lia | assumption]. }
  assert (Hlog : 1024 <= Z.log2 n) by (apply Z.log2_le_pow2; assumption).
  unfold round53.
  destruct (Z.leb_spec (Z.log2 n + 1) 53) as [Hb|Hb]; [lia|].
  set (s := Z.log2 n + 1 - 53) in *.
  assert (Hs : 1 <= s) by (unfold s; lia).
  assert (Ht : 0 < 2 ^ s) by (apply Z.pow_pos_nonneg; lia).
  assert (Hq : 2 ^ 52 <= n / 2 ^ s).
  { apply Z.div_le_lower_bound; [assumption|].
    rewrite <- Z.pow_add_r by lia.
    replace (s + 52) with (Z.log2 n) by (unfold s; lia).
    apply (Z.log2_spec n Hpos). }
  assert (Hm : 2 ^ 52 <= round_half_even n s)
    by (destruct (round_half_even_cases n s) as [-> | ->]; lia).
  assert (Hbig : 2 ^ 1024 <= round_half_even n s * 2 ^ s).
  { apply Z.le_trans with (2 ^ 52 * 2 ^ s).
    - rewrite <- Z.pow_add_r by lia. apply Z.pow_le_mono_r; unfold s; lia.
    - apply Z.mul_le_mono_nonneg_r; lia. }
  destruct (Z.leb_spec (2 ^ 1024) (round_half_even n s * 2 ^ s)); [reflexivity | lia].
Qed.

End Binary64More.

(** ** [bytes] of silence *)

Lemma zero_samples_length (n : Z) :
  0 <= n -> Z.of_nat (length (Statements.zero_samples n)) = 2 * n.
Proof.
  intros Hn. unfold Statements.zero_samples.
  assert (H : forall k : nat, length (concat (repeat [x00; x00]%byte k)) = (2 * k)%nat).
  { induction k as [|k IH]; cbn [repeat concat]; [reflexivity|].
    rewrite length_app, IH. cbn [length]. lia. }
  rewrite H. lia.
Qed.

Lemma zero_samples_all (n : Z) :
  Forall (fun b => b = x00%byte) (Statements.zero_samples n).
Proof.
  unfold Statements.zero_samples. induction (Z.to_nat n) as [|k IH]; cbn [repeat concat].
  - constructor.
  - cbn [app]. repeat constructor. exact IH.
Qed.

(** Below [2^62] samples the repetition fits. *)
Lemma bytes_mul_zero_samples (n : Z) :
  0 <= n < 2 ^ 62 -> bytes_mul [x00; x00]%byte n = Returned (Statements.zero_samples n).
Proof.
  intros Hn. unfold bytes_mul, ssize_max.
  assert (E62 : 2 ^ 62 = 4611686018427387904) by reflexivity.
  assert (E63 : 2 ^ 63 = 9223372036854775808) by reflexivity.
  destruct (Z.ltb_spec n (- 2 ^ 63)); [lia|].
  destruct (Z.ltb_spec (2 ^ 63 - 1) n); [lia|]. cbn [orb].
  destruct (Z.leb_spec n 0).
  - replace n with 0 by lia. reflexivity.
  - assert (2 <= (2 ^ 63 - 1) / n)
      by (apply Z.div_le_lower_bound; lia).
    cbn [length]. destruct (Z.ltb_spec ((2 ^ 63 - 1) / n) (Z.of_nat 2)); [lia|].
    reflexivity.
Qed.

(** A count from [-2^63] to 0 gives no bytes. *)
Lemma bytes_mul_nonpositive (pat : list byte) (n : Z) :
  - 2 ^ 63 <= n <= 0 -> bytes_mul pat n = Returned [].
Proof.
  intros Hn. unfold bytes_mul, ssize_max.
  assert (E63 : 2 ^ 63 = 9223372036854775808) by reflexivity.
  destruct (Z.ltb_spec n (- 2 ^ 63)); [lia|].
  destruct (Z.ltb_spec (2 ^ 63 - 1) n); [lia|]. cbn [orb].
  destruct (Z.leb_spec n 0); [reflexivity | lia].
Qed.

Lemma bytes_mul_raises (pat : list byte) (n : Z) (e : exn) :
  bytes_mul pat n = Raised e -> exn_class e = OverflowError.
Proof.
  unfold bytes_mul.
  destruct (_ || _); [intros [= <-]; reflexivity|].
  destruct (n <=? 0); [discriminate|].
  destruct (_ <? _); [intros [= <-]; reflexivity | discriminate].
Qed.

(** ** The adapter *)

Import Adapter Statements.

Lemma set_stopped_idem (b b' : bool) (self : PiperTTS) :
  set_stopped b (set_stopped b' self) = set_stopped b self.
Proof. reflexivity. Qed.

Lemma set_stopped_same (self : PiperTTS) : set_stopped (_stopped self) self = self.
Proof. destruct self; reflexivity. Qed.

(** Other tasks touch the stop flag and nothing else. *)
Lemma interleave_fields (between : list other_task) (self : PiperTTS) :
  interleave between self = set_stopped (_stopped (interleave between self)) self.
Proof.
  revert self. induction between as [|t between IH]; intros self.
  - cbn. symmetry. apply set_stopped_same.
  - change (interleave (t :: between) self) with (interleave between (interfere t self)).
    rewrite IH at 1. destruct t; reflexivity.
Qed.

Lemma seen_by_routine_fields (between : list other_task) (self : PiperTTS) :
  seen_by_routine between self = set_stopped (_stopped (seen_by_routine between self)) self.
Proof. unfold seen_by_routine. rewrite interleave_fields at 1. reflexivity. Qed.

Lemma seen_by_routine_rate (between : list other_task) (self : PiperTTS) :
  _rate (seen_by_routine between self) = _rate self.
Proof. rewrite seen_by_routine_fields. reflexivity. Qed.

Lemma require_piper_cases (fs : string -> outcome (option ModuleSpec)) :
  _require_piper fs = Returned tt \/ exists e, _require_piper fs = Raised e.
Proof.
  unfold _require_piper. destruct (any_candidate fs) as [[]|e]; cbn; eauto.
Qed.

Lemma require_piper_absent (fs : string -> outcome (option ModuleSpec)) :
  fs "piper" = Returned None -> fs "piper_tts" = Returned None ->
  fs "piper-tts" = Returned None ->
  _require_piper fs = Raised not_installed.
Proof.
  intros H1 H2 H3. unfold _require_piper, any_candidate, candidates.
  cbn [any_spec]. rewrite H1. cbn [Py.bind]. rewrite H2. cbn [Py.bind].
  rewrite H3. reflexivity.
Qed.

(** What [synth] does once the availability check has passed. *)
Lemma synth_available (fs : string -> outcome (option ModuleSpec)) (G : Globals)
    (between : list other_task) (text : string)
    (cancel : option CancellationToken) (self : PiperTTS) :
  _require_piper fs = Returned tt ->
  synth fs G between text cancel self =
    let seen := seen_by_routine between self in
    match _synth_blocking seen text cancel with
    | Raised e => (Raised e, seen, [to_thread_synth seen text cancel])
    | Returned pcm =>
        match normalize_to_canon G with
        | Some normalize =>
            (try_except_Exception (normalize pcm) (Returned pcm), seen,
             [to_thread_synth seen text cancel; normalize_call pcm])
        | None => (Returned pcm, seen, [to_thread_synth seen text cancel])
        end
    end.
Proof. intros H. unfold synth. rewrite H. reflexivity. Qed.

Lemma synth_blocking_stopped (self : PiperTTS) (text : string)
    (cancel : option CancellationToken) :
  _stopped self = true ->
  _synth_blocking self text cancel = Returned (empty_pcm (_rate self)).
Proof. intros H. unfold _synth_blocking. rewrite H. reflexivity. Qed.

Lemma synth_blocking_running (self : PiperTTS) (text : string)
    (cancel : option CancellationToken) :
  _stopped self = false -> 0 <= _rate self < 2 ^ 52 ->
  _synth_blocking self text cancel = Returned (silence_pcm (_rate self)).
Proof.
  intros H Hr. unfold _synth_blocking. rewrite H.
  rewrite Binary64Facts.int_mul_tenth_floor by assumption. cbn [Py.bind].
  rewrite bytes_mul_zero_samples; [reflexivity|].
  split; [apply Z.div_pos; lia|].
  apply Z.div_lt_upper_bound; [lia|].
  apply Z.lt_le_trans with (2 ^ 52); [lia|].
  change (2 ^ 52) with 4503599627370496. change (2 ^ 62) with 4611686018427387904. lia.
Qed.

Lemma synth_blocking_shape (self : PiperTTS) (text : string)
    (cancel : option CancellationToken) (pcm : PcmAudio) :
  _synth_blocking self text cancel = Returned pcm ->
  rate pcm = _rate self /\ channels pcm = 1 /\ width pcm = 2.
Proof.
  unfold _synth_blocking. destruct (_stopped self).
  - intros [= <-]. repeat split.
  - destruct (Binary64.int_mul_tenth (_rate self)) as [n|e]; cbn [Py.bind];
      [|discriminate].
    destruct (bytes_mul [x00; x00]%byte n) as [silence|e]; cbn [Py.bind];
      [|discriminate].
    intros [= <-]. repeat split.
Qed.

Lemma synth_blocking_raises (self : PiperTTS) (text : string)
    (cancel : option CancellationToken) (e : exn) :
  _synth_blocking self text cancel = Raised e -> exn_class e = OverflowError.
Proof.
  unfold _synth_blocking. destruct (_stopped self); [discriminate|].
  destruct (Binary64.int_mul_tenth (_rate self)) as [n|e'] eqn:E; cbn [Py.bind].
  - destruct (bytes_mul [x00; x00]%byte n) as [silence|e'] eqn:Eb; cbn [Py.bind];
      [discriminate|].
    intros [= <-]. exact (bytes_mul_raises _ _ _ Eb).
  - intros [= <-]. apply Binary64Facts.int_mul_tenth_raises in E. subst e'. reflexivity.
Qed.

Lemma hook_passes_through_result (G : Globals) (pcm : PcmAudio) :
  hook_passes_through G pcm ->
  match normalize_to_canon G with
  | Some normalize => try_except_Exception (normalize pcm) (Returned pcm)
  | None => Returned pcm
  end = Returned pcm.
Proof.
  unfold hook_passes_through. destruct (normalize_to_canon G) as [f|]; [|reflexivity].
  intros (e & -> & He). cbn. rewrite He. reflexivity.
Qed.

(** *** Stop flag seen by the routine (C1, C2) *)




(** C2: once the availability check has passed, [synth] clears the stop
    flag before the background routine runs: the routine finds the receiver
    as line 52 left it, changed only by what other tasks did in between.
    In a sequential run, also right after a [stop()], it finds the flag
    cleared. *)
Theorem C2_synth_clears_stop_flag
    (fs : string -> outcome (option ModuleSpec)) (G : Globals) (between : list other_task)
    (text : string) (cancel : option CancellationToken) (self : PiperTTS) :
  _require_piper fs = Returned tt ->
  (exists rest,
     calls (synth fs G between text cancel self)
       = to_thread_synth (interleave between (set_stopped false self)) text cancel :: rest) /\
  _stopped (after (stop self)) = true /\
  (exists seen rest,
     calls (synth fs G [] text cancel (after (stop self)))
       = to_thread_synth seen text cancel :: rest /\
     _stopped seen = false) /\
  _stopped (after (synth fs G [] text cancel (after (stop self)))) = false.
Proof.
  intros Hok.
  assert (Hgen : forall (b : list other_task) (s : PiperTTS),
             (exists rest, calls (synth fs G b text cancel s)
                           = to_thread_synth (seen_by_routine b s) text cancel :: rest) /\
             after (synth fs G b text cancel s) = seen_by_routine b s).
  { intros b s. rewrite synth_available by assumption. cbv zeta.
    destruct (_synth_blocking (seen_by_routine b s) text cancel) as [pcm|e].
    - destruct (normalize_to_canon G); split; eauto.
    - split; eauto. }
  split; [apply Hgen|]. split; [reflexivity|]. split.
  - destruct (Hgen [] (after (stop self))) as [[rest Hrest] _].
    exists (seen_by_routine [] (after (stop self))), rest.
    split; [exact Hrest | reflexivity].
  - destruct (Hgen [] (after (stop self))) as [_ ->]. reflexivity.
Qed.

Lemma C2_witness :
  _require_piper Scenario.piper_installed = Returned tt /\
  exists seen rest,
    calls (synth Scenario.piper_installed Scenario.no_hook [] "hallo" None
             (after (stop (Scenario.adapter 22050))))
      = to_thread_synth seen "hallo" None :: rest /\
    _stopped seen = false.
Proof.
  split; [reflexivity|].
  exact (proj1 (proj2 (proj2 (C2_synth_clears_stop_flag
                                Scenario.piper_installed Scenario.no_hook [] "hallo" None
                                (Scenario.adapter 22050) eq_refl)))).
Defined.

(** *** The availability check (C3, C10) *)

Lemma not_installed_names_install_step :
  occurs_in "pip install piper-tts" (exn_msg not_installed).
Proof.
  exists (msg_what ++ newline ++ "  ")%string, (newline ++ msg_licence)%string.
  reflexivity.
Qed.

Lemma not_installed_names_licence : occurs_in "GPLv3" (exn_msg not_installed).
Proof.
  exists (msg_what ++ newline ++ msg_install ++ newline
          ++ "Achtung: Piper steht unter ")%string,
         "; die Nutzung kann GPL-Pflichten auslösen.".
  reflexivity.
Qed.

(** C3: when [find_spec] finds none of "piper", "piper_tts", "piper-tts",
    [preload()] and [synth(text)] raise the same [RuntimeError], whose text
    names the install step and the GPLv3 caveat, and no call has been handed
    to a worker thread (no call has left the coroutine at all). *)
Theorem C3_engine_not_installed
    (fs : string -> outcome (option ModuleSpec)) (G : Globals) (between : list other_task)
    (text : string) (cancel : option CancellationToken) (self : PiperTTS) :
  fs "piper" = Returned None -> fs "piper_tts" = Returned None ->
  fs "piper-tts" = Returned None ->
  result (preload fs self) = Raised not_installed /\
  calls (preload fs self) = [] /\
  result (synth fs G between text cancel self) = Raised not_installed /\
  calls (synth fs G between text cancel self) = [] /\
  exn_class not_installed = RuntimeError /\
  occurs_in "pip install piper-tts" (exn_msg not_installed) /\
  occurs_in "GPLv3" (exn_msg not_installed).
Proof.
  intros H1 H2 H3.
  pose proof (require_piper_absent fs H1 H2 H3) as Hno.
  unfold preload, synth. rewrite Hno.
  repeat split; auto using not_installed_names_install_step, not_installed_names_licence.
Qed.

Lemma C3_witness :
  (Scenario.nothing_installed "piper" = Returned None /\
   Scenario.nothing_installed "piper_tts" = Returned None /\
   Scenario.nothing_installed "piper-tts" = Returned None) /\
  result (preload Scenario.nothing_installed (Scenario.adapter 22050)) = Raised not_installed /\
  calls (synth Scenario.nothing_installed Scenario.hook_16k [] "hallo" None
           (Scenario.adapter 22050)) = [].
Proof.
  split; [repeat split|].
  pose proof (C3_engine_not_installed Scenario.nothing_installed Scenario.hook_16k []
                "hallo" None (Scenario.adapter 22050) eq_refl eq_refl eq_refl)
    as (Hpre & _ & _ & Hcalls & _).
  split; [exact Hpre | exact Hcalls].
Defined.

(** C10: a [preload()] or [synth(text)] that raises the engine-not-installed
    error leaves the receiver as it was: the state [s] after the failed call
    is the state before it, so the stop flag, the engine handle and every
    configuration field are unchanged. *)
Theorem C10_failed_check_leaves_state
    (fs : string -> outcome (option ModuleSpec)) (G : Globals) (between : list other_task)
    (text : string) (cancel : option CancellationToken) (self s : PiperTTS) :
  (result (preload fs self) = Raised not_installed /\ after (preload fs self) = s) \/
  (result (synth fs G between text cancel self) = Raised not_installed /\
   after (synth fs G between text cancel self) = s) ->
  s = self /\
  _stopped s = _stopped self /\ _engine s = _engine self /\ _rate s = _rate self /\
  _model s = _model self /\ _voice s = _voice self /\ _kw s = _kw self.
Proof.
  intros H.
  assert (Hs : s = self); [|subst s; repeat split].
  destruct H as [[Hres <-]|[Hres <-]].
  - revert Hres. unfold preload.
    destruct (_require_piper fs); [discriminate | reflexivity].
  - revert Hres. destruct (require_piper_cases fs) as [Hok|Hno].
    + rewrite synth_available by assumption. cbv zeta.
      destruct (_synth_blocking (seen_by_routine between self) text cancel)
        as [pcm|e] eqn:Erun.
      * destruct (normalize_to_canon G) as [normalize|]; [|discriminate].
        unfold result; cbn [fst].
        destruct (normalize pcm) as [out|e]; cbn; [discriminate|].
        destruct (is_Exception e) eqn:He; [discriminate|].
        intros [= ->]. discriminate He.
      * unfold result; cbn [fst]. intros [= ->].
        apply synth_blocking_raises in Erun. discriminate Erun.
    + destruct Hno as [e Hno]. unfold synth. rewrite Hno. reflexivity.
Qed.

Lemma C10_witness :
  result (synth Scenario.nothing_installed Scenario.hook_16k [other_stop] "hallo" None
            (after (stop (Scenario.adapter 22050)))) = Raised not_installed /\
  after (synth Scenario.nothing_installed Scenario.hook_16k [other_stop] "hallo" None
           (after (stop (Scenario.adapter 22050)))) = after (stop (Scenario.adapter 22050)).
Proof.
  split; [reflexivity|].
  exact (proj1 (C10_failed_check_leaves_state Scenario.nothing_installed
                  Scenario.hook_16k [other_stop] "hallo" None
                  (after (stop (Scenario.adapter 22050))) _
                  (or_intror (conj eq_refl eq_refl)))).
Defined.

(** *** The placeholder's silence (C4) *)

(** C4, as the specification states it, fails where a tenth of the rate is
    not a whole number: at 22055 Hz, without hook and without [stop()], the
    payload has 4410 bytes, while [22055 * 0.1 * 2] is 4411.  It also fails
    where the hook is installed: at 22050 Hz [resample_16k] returns 3200
    bytes, not 4410. *)
Lemma C4_counterexample_fraction_dropped :
  _require_piper Scenario.piper_installed = Returned tt /\
  _stopped (seen_by_routine [] (Scenario.adapter 22055)) = false /\
  (exists pcm,
     result (synth Scenario.piper_installed Scenario.no_hook [] "hallo" None
               (Scenario.adapter 22055)) = Returned pcm /\
     length (data pcm) = 4410%nat /\
     10 * Z.of_nat (length (data pcm)) <> 22055 * 2) /\
  (exists pcm,
     result (synth Scenario.piper_installed Scenario.hook_16k [] "hallo" None
               (Scenario.adapter 22050)) = Returned pcm /\
     length (data pcm) = 3200%nat).
Proof.
  split; [reflexivity|]. split; [reflexivity|]. split.
  - eexists. split; [vm_compute; reflexivity|]. split; [reflexivity|].
    vm_compute. discriminate.
  - eexists. split; [vm_compute; reflexivity|]. reflexivity.
Qed.

(** C4, amended: for an adapter with rate [r], [0 <= r < 2^52], if the stop
    flag is not set when the placeholder routine runs and normalisation
    leaves the value as it is (no hook, or the hook raises an [Exception]),
    [synth] returns [2 * (r / 10)] zero bytes, [r / 10] rounded down, at
    rate [r], mono, width 2: the float product [r * 0.1] cut to whole
    samples.  That is [r * 0.1 * 2] bytes when [r] is a multiple of 10, and
    4410 bytes at 22050 Hz. *)
Theorem C4_placeholder_silence
    (fs : string -> outcome (option ModuleSpec)) (G : Globals) (between : list other_task)
    (text : string) (cancel : option CancellationToken) (self : PiperTTS) :
  _require_piper fs = Returned tt ->
  _stopped (seen_by_routine between self) = false ->
  0 <= _rate self < 2 ^ 52 ->
  hook_passes_through G (silence_pcm (_rate self)) ->
  exists pcm,
    result (synth fs G between text cancel self) = Returned pcm /\
    rate pcm = _rate self /\ channels pcm = 1 /\ width pcm = 2 /\
    Forall (fun b => b = x00%byte) (data pcm) /\
    Z.of_nat (length (data pcm)) = 2 * (_rate self / 10) /\
    (_rate self mod 10 = 0 -> 10 * Z.of_nat (length (data pcm)) = _rate self * 2) /\
    (_rate self = 22050 -> Z.of_nat (length (data pcm)) = 4410).
Proof.
  intros Hok Hrun Hr Hpass.
  exists (silence_pcm (_rate self)).
  assert (Hlen : Z.of_nat (length (data (silence_pcm (_rate self)))) = 2 * (_rate self / 10)).
  { cbn [silence_pcm data]. apply zero_samples_length.
    apply Z.div_pos; lia. }
  split.
  - rewrite synth_available by assumption. cbv zeta.
    rewrite synth_blocking_running, seen_by_routine_rate;
      [| assumption | rewrite seen_by_routine_rate; assumption].
    unfold result.
    pose proof (hook_passes_through_result G _ Hpass) as Hres.
    destruct (normalize_to_canon G); exact Hres.
  - repeat split.
    + apply zero_samples_all.
    + exact Hlen.
    + intros Hmod. rewrite Hlen.
      pose proof (Z.div_mod (_rate self) 10 ltac:(lia)). lia.
    + intros H22050. rewrite Hlen, H22050. reflexivity.
Qed.

Lemma C4_witness :
  (_require_piper Scenario.piper_installed = Returned tt /\
   _stopped (seen_by_routine [other_stop; other_synth] (Scenario.adapter 22050)) = false /\
   0 <= _rate (Scenario.adapter 22050) < 2 ^ 52 /\
   hook_passes_through Scenario.hook_failing (silence_pcm (_rate (Scenario.adapter 22050)))) /\
  exists pcm,
    result (synth Scenario.piper_installed Scenario.hook_failing [other_stop; other_synth]
              "hallo" None (Scenario.adapter 22050)) = Returned pcm /\
    Z.of_nat (length (data pcm)) = 4410.
Proof.
  assert (Hr : 0 <= _rate (Scenario.adapter 22050) < 2 ^ 52) by (cbn; lia).
  assert (Hpass : hook_passes_through Scenario.hook_failing
                    (silence_pcm (_rate (Scenario.adapter 22050)))).
  { cbn. eexists. split; reflexivity. }
  split; [repeat split; solve [reflexivity | apply Hr | exact Hpass]|].
  destruct (C4_placeholder_silence Scenario.piper_installed Scenario.hook_failing
              [other_stop; other_synth] "hallo" None (Scenario.adapter 22050)
              eq_refl eq_refl Hr Hpass)
    as (pcm & Hres & _ & _ & _ & _ & _ & _ & H4410).
  exists pcm. split; [exact Hres | apply H4410; reflexivity].
Defined.

(** *** What [synth] and [say] return (C5, C6, C7) *)

(** C5, as the specification states it, fails in three ways, each with
    piper installed and no [stop()] in sight.  At a rate of [2^1024] the
    product with [0.1] raises [OverflowError] and [synth] returns nothing.
    With a hook that raises [KeyboardInterrupt] the clause of line 59 lets
    it pass, and [synth] returns nothing.  With a hook that hands out two
    channels [synth] returns the hook's value, which is not mono. *)
Lemma C5_counterexample_no_value_or_not_mono :
  _require_piper Scenario.piper_installed = Returned tt /\
  result (synth Scenario.piper_installed Scenario.no_hook [] "hallo" None
            (Scenario.adapter (2 ^ 1024)))
    = Raised (Exn OverflowError Binary64.overflow_msg) /\
  result (synth Scenario.piper_installed Scenario.hook_interrupted [] "hallo" None
            (Scenario.adapter 22050))
    = Raised (Exn KeyboardInterrupt "") /\
  (exists pcm,
     result (synth Scenario.piper_installed Scenario.hook_stereo [] "hallo" None
               (Scenario.adapter 22050)) = Returned pcm /\
     channels pcm = 2).
Proof.
  split; [reflexivity|]. split; [vm_compute; reflexivity|].
  split; [vm_compute; reflexivity|].
  eexists. split; [vm_compute; reflexivity | reflexivity].
Qed.

(** C5, amended: with the check passed and a rate below [2^52] in
    magnitude, the routine returns a PCM value of width 2 and one channel
    for every text, whether it finds the stop flag set or not.  [synth]
    returns that value where there is no hook or the hook raises an
    [Exception], and the hook's value where the hook returns one.  So what
    [synth] returns is 2 bytes wide and mono whether normalisation runs or
    not, provided the hook keeps to mono 16-bit values and fails only with
    an [Exception]. *)
Theorem C5_synth_returns_mono_16bit
    (fs : string -> outcome (option ModuleSpec)) (G : Globals) (between : list other_task)
    (text : string) (cancel : option CancellationToken) (self : PiperTTS) :
  _require_piper fs = Returned tt ->
  Z.abs (_rate self) < 2 ^ 52 ->
  exists raw,
    _synth_blocking (seen_by_routine between self) text cancel = Returned raw /\
    width raw = 2 /\ channels raw = 1 /\
    (hook_passes_through G raw ->
     result (synth fs G between text cancel self) = Returned raw) /\
    (forall normalize out,
       normalize_to_canon G = Some normalize -> normalize raw = Returned out ->
       result (synth fs G between text cancel self) = Returned out) /\
    (hook_contract G ->
     exists pcm,
       result (synth fs G between text cancel self) = Returned pcm /\
       width pcm = 2 /\ channels pcm = 1).
Proof.
  intros Hok Hrate.
  assert (Hrun : exists raw,
             _synth_blocking (seen_by_routine between self) text cancel = Returned raw).
  { unfold _synth_blocking. destruct (_stopped _) eqn:Hs; [eauto|].
    rewrite seen_by_routine_rate.
    rewrite Binary64More.int_mul_tenth_quot by assumption. cbn [Py.bind].
    assert (Hq : Z.abs (Z.quot (_rate self) 10) <= Z.abs (_rate self)).
    { rewrite <- Z.quot_abs by lia. change (Z.abs 10) with 10.
      apply Z.quot_le_upper_bound; lia. }
    assert (E52 : 2 ^ 52 = 4503599627370496) by reflexivity.
    assert (E62 : 2 ^ 62 = 4611686018427387904) by reflexivity.
    assert (E63 : 2 ^ 63 = 9223372036854775808) by reflexivity.
    destruct (Z.le_gt_cases 0 (Z.quot (_rate self) 10)).
    - rewrite bytes_mul_zero_samples by lia. cbn [Py.bind]. eauto.
    - rewrite bytes_mul_nonpositive by lia. cbn [Py.bind]. eauto. }
  destruct Hrun as [raw Hraw]. exists raw.
  destruct (synth_blocking_shape _ _ _ _ Hraw) as (_ & Hch & Hw).
  assert (Hres : result (synth fs G between text cancel self)
                 = match normalize_to_canon G with
                   | Some normalize => try_except_Exception (normalize raw) (Returned raw)
                   | None => Returned raw
                   end).
  { rewrite synth_available by assumption. cbv zeta. rewrite Hraw.
    destruct (normalize_to_canon G); reflexivity. }
  split; [exact Hraw|]. split; [exact Hw|]. split; [exact Hch|].
  split; [|split].
  - intros Hpass. rewrite Hres. apply hook_passes_through_result, Hpass.
  - intros normalize out Hn Hout. rewrite Hres, Hn, Hout. reflexivity.
  - intros Hhook. rewrite Hres.
    destruct (normalize_to_canon G) as [normalize|] eqn:Hn; [|exists raw; tauto].
    specialize (Hhook normalize raw Hn).
    destruct (normalize raw) as [out|e]; cbn.
    + exists out. tauto.
    + rewrite Hhook. exists raw. tauto.
Qed.

Lemma C5_witness :
  (_require_piper Scenario.piper_installed = Returned tt /\
   Z.abs (_rate (Scenario.adapter 22050)) < 2 ^ 52) /\
  exists pcm,
    result (synth Scenario.piper_installed Scenario.hook_16k [] "hallo" None
              (Scenario.adapter 22050)) = Returned pcm /\
    width pcm = 2 /\ channels pcm = 1.
Proof.
  assert (Hrate : Z.abs (_rate (Scenario.adapter 22050)) < 2 ^ 52) by (cbn; lia).
  assert (Hhook : hook_contract Scenario.hook_16k).
  { intros normalize p [= <-]. cbn. split; reflexivity. }
  split; [split; [reflexivity | exact Hrate]|].
  destruct (C5_synth_returns_mono_16bit Scenario.piper_installed Scenario.hook_16k []
              "hallo" None (Scenario.adapter 22050) eq_refl Hrate)
    as (raw & _ & _ & _ & _ & _ & Hall).
  exact (Hall Hhook).
Defined.

(** C6, as the specification states it, fails for what the hook raises
    outside [Exception]: a hook interrupted from the keyboard raises
    [KeyboardInterrupt], line 59 does not catch it, and [synth] passes it to
    the caller instead of returning the PCM value. *)
Lemma C6_counterexample_interrupt_propagates :
  _require_piper Scenario.piper_installed = Returned tt /\
  normalize_to_canon Scenario.hook_interrupted = Some Scenario.interrupted_hook /\
  _synth_blocking (seen_by_routine [other_stop] (Scenario.adapter 22050)) "hallo" None
    = Returned (empty_pcm 22050) /\
  Scenario.interrupted_hook (empty_pcm 22050) = Raised (Exn KeyboardInterrupt "") /\
  result (synth Scenario.piper_installed Scenario.hook_interrupted [other_stop] "hallo" None
            (Scenario.adapter 22050))
    = Raised (Exn KeyboardInterrupt "") /\
  result (synth Scenario.piper_installed Scenario.hook_interrupted [other_stop] "hallo" None
            (Scenario.adapter 22050))
    <> Returned (empty_pcm 22050).
Proof. repeat split; discriminate. Qed.

(** C6, amended: if the hook is installed and raises an [Exception] on the
    value the routine produced, [synth] returns that value, not normalised,
    and the exception does not reach the caller. *)
Theorem C6_normalization_failure_suppressed
    (fs : string -> outcome (option ModuleSpec)) (G : Globals) (between : list other_task)
    (text : string) (cancel : option CancellationToken) (self : PiperTTS)
    (normalize : PcmAudio -> outcome PcmAudio) (pcm : PcmAudio) (e : exn) :
  _require_piper fs = Returned tt ->
  normalize_to_canon G = Some normalize ->
  _synth_blocking (seen_by_routine between self) text cancel = Returned pcm ->
  normalize pcm = Raised e ->
  is_Exception e = true ->
  result (synth fs G between text cancel self) = Returned pcm.
Proof.
  intros Hok Hn Hraw Hfail He.
  rewrite synth_available by assumption. cbv zeta.
  rewrite Hraw, Hn. unfold result; cbn [fst].
  rewrite Hfail. cbn. rewrite He. reflexivity.
Qed.

Lemma C6_witness :
  (_require_piper Scenario.piper_installed = Returned tt /\
   normalize_to_canon Scenario.hook_failing = Some Scenario.failing_hook /\
   _synth_blocking (seen_by_routine [] (Scenario.adapter 22050)) "hallo" None
     = Returned (silence_pcm 22050) /\
   Scenario.failing_hook (silence_pcm 22050)
     = Raised (Exn ValueError "unsupported sample width") /\
   is_Exception (Exn ValueError "unsupported sample width") = true) /\
  result (synth Scenario.piper_installed Scenario.hook_failing [] "hallo" None
            (Scenario.adapter 22050)) = Returned (silence_pcm 22050).
Proof.
  assert (Hraw : _synth_blocking (seen_by_routine [] (Scenario.adapter 22050)) "hallo" None
                 = Returned (silence_pcm 22050)) by (vm_compute; reflexivity).
  split; [repeat split; solve [reflexivity | exact Hraw]|].
  exact (C6_normalization_failure_suppressed Scenario.piper_installed
           Scenario.hook_failing [] "hallo" None (Scenario.adapter 22050)
           Scenario.failing_hook (silence_pcm 22050)
           (Exn ValueError "unsupported sample width")
           eq_refl eq_refl Hraw eq_refl eq_refl).
Defined.

(** The calls [synth] makes: the routine with the caller's text and token,
    then at most the hook. *)
Lemma synth_calls (fs : string -> outcome (option ModuleSpec)) (G : Globals)
    (between : list other_task) (text : string)
    (cancel : option CancellationToken) (self : PiperTTS) :
  Forall (made_by_synth text cancel) (calls (synth fs G between text cancel self)).
Proof.
  unfold synth. destruct (_require_piper fs); [|constructor].
  destruct (_synth_blocking _ text cancel); [|repeat constructor].
  destruct (normalize_to_canon G); repeat constructor.
Qed.

Lemma made_by_synth_no_playback (text : string) (cancel : option CancellationToken)
    (l : list call) :
  Forall (made_by_synth text cancel) l -> existsb is_sink_play l = false.
Proof.
  induction 1 as [|c l Hc _ IH]; [reflexivity|].
  cbn [existsb]. rewrite IH. destruct c; cbn in *; tauto.
Qed.

(** C7: [say(text)] is [synth(text)] with the same text and token, its PCM
    value dropped: it returns [None] where [synth] returns, passes on what
    [synth] raises, leaves the receiver as [synth] does, and makes the calls
    of [synth] and no other, so none to a playback primitive. *)
Theorem C7_say_discards_pcm
    (fs : string -> outcome (option ModuleSpec)) (G : Globals) (between : list other_task)
    (text : string) (cancel : option CancellationToken) (self : PiperTTS) :
  result (say fs G between text cancel self)
    = match result (synth fs G between text cancel self) with
      | Returned _ => Returned tt
      | Raised e => Raised e
      end /\
  after (say fs G between text cancel self) = after (synth fs G between text cancel self) /\
  calls (say fs G between text cancel self) = calls (synth fs G between text cancel self) /\
  Forall (made_by_synth text cancel) (calls (say fs G between text cancel self)) /\
  existsb is_sink_play (calls (say fs G between text cancel self)) = false.
Proof.
  assert (Hcalls : calls (say fs G between text cancel self)
                   = calls (synth fs G between text cancel self)).
  { unfold say. destruct (synth fs G between text cancel self) as [[r s] c]. reflexivity. }
  split; [|split; [|split; [exact Hcalls|]]].
  - unfold say. destruct (synth fs G between text cancel self) as [[[pcm|e] s] c]; reflexivity.
  - unfold say. destruct (synth fs G between text cancel self) as [[r s] c]. reflexivity.
  - rewrite Hcalls. split; [apply synth_calls|].
    apply made_by_synth_no_playback with text cancel, synth_calls.
Qed.

(** *** Loading the module (C8) *)

(** C8, as the specification states it, fails when [auicommon] is missing:
    the import of [PcmAudio] in line 7 stands outside every [try], so with
    neither [auicommon] nor the registry installed the import of the module
    raises [ModuleNotFoundError]. *)
Lemma C8_counterexample_types_import_unguarded :
  returns (import_factory Scenario.no_auicommon) = false /\
  import_module Scenario.no_auicommon
    = Raised (Exn ModuleNotFoundError "No module named 'auicommon'") /\
  returns (import_module Scenario.no_auicommon) = false.
Proof. repeat split. Qed.

(** C8, amended: provided [from auicommon.audio.types import PcmAudio]
    succeeds, importing the module does not raise, whatever [Exception] the
    optional import of the conversion helpers or the self-registration under
    "piper" raises ([register] or the [REGISTRY] item assignment, or the
    import of a registry that is not there): the helpers are then unset and
    the registration is skipped. *)
Theorem C8_import_survives_optional_failures (I : Imports) :
  import_types I = Returned tt ->
  raises_only_Exception (import_convert I) ->
  raises_only_Exception (registration_body I) ->
  exists G F,
    import_module I = Returned (G, F) /\
    (returns (import_convert I) = false ->
     normalize_to_canon G = None /\ CANON_FORMAT G = None) /\
    (returns (registration_body I) = false -> F = None).
Proof.
  intros Htypes Hconv Hreg.
  unfold import_module, optional_convert, registration.
  rewrite Htypes. cbn [Py.bind].
  destruct (import_convert I) as [[normalize canon]|e]; cbn in Hconv |- *.
  - destruct (registration_body I) as [F|e]; cbn in Hreg |- *.
    + eexists _, F. repeat split; discriminate.
    + rewrite Hreg. cbn. eexists _, None. repeat split; discriminate.
  - rewrite Hconv. cbn.
    destruct (registration_body I) as [F|e']; cbn in Hreg |- *.
    + eexists _, F. repeat split; discriminate.
    + rewrite Hreg. cbn. eexists _, None. repeat split; discriminate.
Qed.

Lemma C8_witness :
  (import_types Scenario.no_registry = Returned tt /\
   raises_only_Exception (import_convert Scenario.no_registry) /\
   raises_only_Exception (registration_body Scenario.no_registry)) /\
  exists G F, import_module Scenario.no_registry = Returned (G, F) /\ F = None.
Proof.
  split; [repeat split|].
  destruct (C8_import_survives_optional_failures Scenario.no_registry
              eq_refl I eq_refl) as (G & F & Hload & _ & HF).
  exists G, F. split; [exact Hload | apply HF; reflexivity].
Defined.

(** With a [dict] as [REGISTRY] and no [register], loading the module leaves
    the lambda under the key "piper" and the other entries alone. *)
Lemma registration_inserts_piper (m : gmap string ctor) :
  registration (Scenario.with_registry m)
    = Returned (Some {| register := None;
                        REGISTRY := Some (dict (<["piper" := lambda_PiperTTS]> m)) |}) /\
  (<["piper" := lambda_PiperTTS]> m) !! "piper" = Some lambda_PiperTTS /\
  (forall k, k <> "piper" -> (<["piper" := lambda_PiperTTS]> m) !! k = m !! k).
Proof.
  split; [reflexivity|]. split.
  - apply lookup_insert_eq.
  - intros k Hk. apply lookup_insert_ne. congruence.
Qed.

(** ** The synchronous stub (C9) *)

Lemma append_empty_r (s : string) : (s ++ "")%string = s.
Proof.
  induction s as [|a s IH]; [reflexivity|].
  change (String a (s ++ "")%string = String a s). now rewrite IH.
Qed.

(** C9: from any state [say(text)] sets the speaking flag and prints one
    line that contains the text; [stop()] prints a line exactly when the
    flag is set and clears the flag in every case.  Neither returns a
    value. *)
Theorem C9_stub_say_and_stop (text : string) (self : Stub.PiperTTS) :
  Stub._speaking (fst (Stub.say text self)) = true /\
  (exists line, snd (Stub.say text self) = [line] /\ occurs_in text line) /\
  Stub._speaking (fst (Stub.stop self)) = false /\
  (snd (Stub.stop self) <> [] <-> Stub._speaking self = true) /\
  snd (Stub.stop self) = (if Stub._speaking self then ["[Piper] stop"] else []).
Proof.
  split; [reflexivity|]. split.
  - eexists. split; [reflexivity|].
    exists "[Piper] say: ", "". rewrite append_empty_r. reflexivity.
  - split; [reflexivity|]. split; [|reflexivity].
    unfold Stub.stop. destruct (Stub._speaking self); cbn; split;
      congruence.
Qed.

(** * Further properties of the code *)

(** Just above [2^52] the rounding of the product can reach the next
    integer. *)
Example int_mul_tenth_rounds_up :
  Binary64.int_mul_tenth 6857430290201789 = Returned 685743029020179 /\
  6857430290201789 / 10 = 685743029020178.
Proof. split; vm_compute; reflexivity. Qed.

(** ** The availability check *)

(** The check probes "piper", "piper_tts", "piper-tts" in this order and
    stops at the first probe that does not answer [None]: it passes when
    that probe finds a spec, without looking at the later names, and raises
    what that probe raises (the [ValueError] of a [sys.modules] entry
    without [__spec__], say), even if a later name is installed. *)
Theorem require_piper_first_answer (fs : string -> outcome (option ModuleSpec)) :
  (_require_piper fs = Returned tt <->
   (exists spec, fs "piper" = Returned (Some spec)) \/
   (fs "piper" = Returned None /\ exists spec, fs "piper_tts" = Returned (Some spec)) \/
   (fs "piper" = Returned None /\ fs "piper_tts" = Returned None /\
    exists spec, fs "piper-tts" = Returned (Some spec))) /\
  (forall e, fs "piper" = Raised e -> _require_piper fs = Raised e) /\
  (forall e, fs "piper" = Returned None -> fs "piper_tts" = Raised e ->
             _require_piper fs = Raised e) /\
  (forall e, fs "piper" = Returned None -> fs "piper_tts" = Returned None ->
             fs "piper-tts" = Raised e -> _require_piper fs = Raised e) /\
  _require_piper Scenario.piper_without_spec
    = Raised (Exn ValueError "piper.__spec__ is None").
Proof.
  unfold _require_piper, any_candidate, candidates. cbn [any_spec].
  split; [|split; [|split; [|split]]].
  - destruct (fs "piper") as [[s1|]|e1]; cbn [Py.bind].
    + cbn. split; [eauto|reflexivity].
    + destruct (fs "piper_tts") as [[s2|]|e2]; cbn [Py.bind].
      * cbn. split; [eauto 6|reflexivity].
      * destruct (fs "piper-tts") as [[s3|]|e3]; cbn.
        -- split; [eauto 8|reflexivity].
        -- split; [discriminate|].
           intros [[? ?]|[[_ [? ?]]|(_ & _ & [? ?])]]; discriminate.
        -- split; [discriminate|].
           intros [[? ?]|[[_ [? ?]]|(_ & _ & [? ?])]]; discriminate.
      * split; [discriminate|].
        intros [[? ?]|[[_ [? ?]]|(_ & ? & _)]]; discriminate.
    + split; [discriminate|].
      intros [[? ?]|[[? _]|(? & _)]]; discriminate.
  - intros e ->. reflexivity.
  - intros e -> ->. reflexivity.
  - intros e -> -> ->. reflexivity.
  - reflexivity.
Qed.

(** [say] without the engine: the error of the check, no call made, the
    receiver untouched. *)
Theorem say_engine_not_installed
    (fs : string -> outcome (option ModuleSpec)) (G : Globals) (between : list other_task)
    (text : string) (cancel : option CancellationToken) (self : PiperTTS) :
  fs "piper" = Returned None -> fs "piper_tts" = Returned None ->
  fs "piper-tts" = Returned None ->
  say fs G between text cancel self = (Raised not_installed, self, []).
Proof.
  intros H1 H2 H3. unfold say, synth.
  rewrite (require_piper_absent fs H1 H2 H3). reflexivity.
Qed.

Lemma say_engine_not_installed_witness :
  (Scenario.nothing_installed "piper" = Returned None /\
   Scenario.nothing_installed "piper_tts" = Returned None /\
   Scenario.nothing_installed "piper-tts" = Returned None) /\
  say Scenario.nothing_installed Scenario.hook_16k [other_stop] "hallo" None
      (Scenario.adapter 22050)
    = (Raised not_installed, Scenario.adapter 22050, []).
Proof.
  split; [repeat split|].
  exact (say_engine_not_installed Scenario.nothing_installed Scenario.hook_16k
           [other_stop] "hallo" None (Scenario.adapter 22050)
           eq_refl eq_refl eq_refl).
Defined.

(** ** The blocking routine *)

(** With the flag clear the payload has [2 * max 0 (r quot 10)] bytes for
    every rate [r] of magnitude below [2^52]; below 10 Hz, negative rates
    included, the routine returns the very value it returns when stopped. *)
Theorem synth_blocking_payload (self : PiperTTS) (text : string)
    (cancel : option CancellationToken) :
  Z.abs (_rate self) < 2 ^ 52 ->
  _stopped self = false ->
  exists pcm,
    _synth_blocking self text cancel = Returned pcm /\
    rate pcm = _rate self /\ channels pcm = 1 /\ width pcm = 2 /\
    Z.of_nat (length (data pcm)) = 2 * Z.max 0 (Z.quot (_rate self) 10) /\
    (_rate self < 10 -> pcm = empty_pcm (_rate self)).
Proof.
  intros Hr Hrun. unfold _synth_blocking. rewrite Hrun.
  rewrite Binary64More.int_mul_tenth_quot by assumption. cbn [Py.bind].
  assert (Hq : Z.abs (Z.quot (_rate self) 10) <= Z.abs (_rate self)).
  { rewrite <- Z.quot_abs by lia. change (Z.abs 10) with 10.
    apply Z.quot_le_upper_bound; lia. }
  assert (E52 : 2 ^ 52 = 4503599627370496) by reflexivity.
  assert (E62 : 2 ^ 62 = 4611686018427387904) by reflexivity.
  assert (E63 : 2 ^ 63 = 9223372036854775808) by reflexivity.
  destruct (Z.le_gt_cases 0 (_rate self)) as [Hpos|Hneg].
  - assert (0 <= Z.quot (_rate self) 10) by (apply Z.quot_pos; lia).
    rewrite bytes_mul_zero_samples by lia. cbn [Py.bind].
    eexists. split; [reflexivity|]. cbn [rate channels width data].
    repeat split.
    + rewrite zero_samples_length by assumption. lia.
    + intros Hlow. unfold empty_pcm. f_equal.
      rewrite Z.quot_small by lia. reflexivity.
  - assert (Z.quot (_rate self) 10 <= 0).
    { replace (_rate self) with (- - _rate self) by lia.
      rewrite Z.quot_opp_l by lia.
      assert (0 <= Z.quot (- _rate self) 10) by (apply Z.quot_pos; lia). lia. }
    rewrite bytes_mul_nonpositive by lia. cbn [Py.bind].
    eexists. split; [reflexivity|]. cbn [rate channels width data].
    repeat split. cbn [length]. lia.
Qed.

Lemma synth_blocking_payload_witness :
  (Z.abs (_rate (Scenario.adapter (-22050))) < 2 ^ 52 /\
   _stopped (Scenario.adapter (-22050)) = false) /\
  exists pcm,
    _synth_blocking (Scenario.adapter (-22050)) "hallo" None = Returned pcm /\
    Z.of_nat (length (data pcm)) = 0.
Proof.
  assert (Hr : Z.abs (_rate (Scenario.adapter (-22050))) < 2 ^ 52) by (cbn; lia).
  split; [split; [exact Hr | reflexivity]|].
  destruct (synth_blocking_payload (Scenario.adapter (-22050)) "hallo" None Hr eq_refl)
    as (pcm & Hres & _ & _ & _ & Hlen & _).
  exists pcm. split; [exact Hres | exact Hlen].
Defined.

(** A rate from [2^1024] on cannot be multiplied with [0.1]: unless the
    routine finds the stop flag set, [synth] raises [OverflowError] after
    the worker was started, and the hook is not called. *)
Theorem synth_rate_overflow
    (fs : string -> outcome (option ModuleSpec)) (G : Globals) (between : list other_task)
    (text : string) (cancel : option CancellationToken) (self : PiperTTS) :
  _require_piper fs = Returned tt ->
  _stopped (seen_by_routine between self) = false ->
  2 ^ 1024 <= Z.abs (_rate self) ->
  result (synth fs G between text cancel self)
    = Raised (Exn OverflowError Binary64.overflow_msg) /\
  calls (synth fs G between text cancel self)
    = [to_thread_synth (seen_by_routine between self) text cancel].
Proof.
  intros Hok Hrun Hbig.
  rewrite synth_available by assumption. cbv zeta.
  unfold _synth_blocking. rewrite Hrun, seen_by_routine_rate.
  unfold Binary64.int_mul_tenth.
  rewrite Binary64More.float_of_int_overflows by assumption.
  cbn. split; reflexivity.
Qed.

Lemma synth_rate_overflow_witness :
  (_require_piper Scenario.piper_installed = Returned tt /\
   _stopped (seen_by_routine [] (Scenario.adapter (2 ^ 1024))) = false /\
   2 ^ 1024 <= Z.abs (_rate (Scenario.adapter (2 ^ 1024)))) /\
  result (synth Scenario.piper_installed Scenario.hook_16k [] "hallo" None
            (Scenario.adapter (2 ^ 1024)))
    = Raised (Exn OverflowError Binary64.overflow_msg).
Proof.
  assert (Hbig : 2 ^ 1024 <= Z.abs (_rate (Scenario.adapter (2 ^ 1024)))).
  { cbn [Scenario.adapter __init__ _rate]. rewrite Z.abs_eq; [apply Z.le_refl|].
    apply Z.pow_nonneg. lia. }
  split; [repeat split; solve [reflexivity | exact Hbig]|].
  exact (proj1 (synth_rate_overflow Scenario.piper_installed Scenario.hook_16k []
                  "hallo" None (Scenario.adapter (2 ^ 1024)) eq_refl eq_refl Hbig)).
Defined.

(** The placeholder looks neither at the text nor at the token: two calls
    that differ only in these return the same value and leave the same
    receiver. *)
Theorem synth_ignores_text_and_token
    (fs : string -> outcome (option ModuleSpec)) (G : Globals) (between : list other_task)
    (text text' : string) (cancel cancel' : option CancellationToken)
    (self : PiperTTS) :
  result (synth fs G between text cancel self)
    = result (synth fs G between text' cancel' self) /\
  after (synth fs G between text cancel self)
    = after (synth fs G between text' cancel' self).
Proof.
  unfold synth. destruct (_require_piper fs); [|split; reflexivity].
  change (_synth_blocking (interleave between (set_stopped false self)) text' cancel')
    with (_synth_blocking (interleave between (set_stopped false self)) text cancel).
  destruct (_synth_blocking _ text cancel); [|split; reflexivity].
  destruct (normalize_to_canon G); split; reflexivity.
Qed.

(** ** The stop flag *)

(** A [stop()] that has returned before [synth()] is called is lost: the
    whole run of [synth], its value, the receiver afterwards and its calls,
    is the one it would have been without the [stop()]. *)
Theorem stop_before_synth_is_lost
    (fs : string -> outcome (option ModuleSpec)) (G : Globals) (between : list other_task)
    (text : string) (cancel : option CancellationToken) (self : PiperTTS) :
  _require_piper fs = Returned tt ->
  synth fs G between text cancel (after (stop self))
    = synth fs G between text cancel self.
Proof.
  intros Hok. rewrite !synth_available by assumption. reflexivity.
Qed.

Lemma stop_before_synth_is_lost_witness :
  _require_piper Scenario.piper_installed = Returned tt /\
  synth Scenario.piper_installed Scenario.no_hook [] "hallo" None
        (after (stop (Scenario.adapter 22050)))
    = synth Scenario.piper_installed Scenario.no_hook [] "hallo" None
            (Scenario.adapter 22050).
Proof.
  split; [reflexivity|].
  exact (stop_before_synth_is_lost Scenario.piper_installed Scenario.no_hook []
           "hallo" None (Scenario.adapter 22050) eq_refl).
Defined.

Lemma last_cons_default {A : Type} (l : list A) (a d d' : A) :
  List.last (a :: l) d = List.last (a :: l) d'.
Proof.
  revert a. induction l as [|b l IH]; intros a; [reflexivity|].
  change (List.last (b :: l) d = List.last (b :: l) d'). apply IH.
Qed.

Lemma interleave_last_writer (between : list other_task) (self : PiperTTS) :
  _stopped (interleave between self)
    = Session.flag_written
        (List.last between (if _stopped self then other_stop else other_synth)).
Proof.
  revert self. induction between as [|t between IH]; intros self.
  - cbn. destruct (_stopped self); reflexivity.
  - change (interleave (t :: between) self) with (interleave between (interfere t self)).
    rewrite IH. destruct between as [|t' between].
    + destruct t; reflexivity.
    + change (List.last (t :: t' :: between)
                (if _stopped self then other_stop else other_synth))
        with (List.last (t' :: between)
                (if _stopped self then other_stop else other_synth)).
      f_equal. apply last_cons_default.
Qed.

(** Of all the flag writes that arrive between line 52 and the start of the
    worker, only the last one counts: the routine finds the flag set exactly
    when that one is a [stop()], and then returns the empty value; otherwise
    it returns what it returns in a sequential run. *)
Theorem routine_sees_last_flag_write
    (between : list other_task) (text : string)
    (cancel : option CancellationToken) (self : PiperTTS) :
  _stopped (seen_by_routine between self)
    = Session.flag_written (List.last between other_synth) /\
  (List.last between other_synth = other_stop <->
   _stopped (seen_by_routine between self) = true) /\
  _synth_blocking (seen_by_routine between self) text cancel
    = (if Session.flag_written (List.last between other_synth)
       then Returned (empty_pcm (_rate self))
       else _synth_blocking (seen_by_routine [] self) text cancel).
Proof.
  assert (H : _stopped (seen_by_routine between self)
              = Session.flag_written (List.last between other_synth)).
  { unfold seen_by_routine. rewrite interleave_last_writer. reflexivity. }
  split; [exact H|]. split.
  - rewrite H. destruct (List.last between other_synth); cbn; split; congruence.
  - rewrite <- H. destruct (_stopped (seen_by_routine between self)) eqn:Hs.
    + rewrite synth_blocking_stopped by assumption.
      rewrite seen_by_routine_rate. reflexivity.
    + rewrite (seen_by_routine_fields between self), Hs. reflexivity.
Qed.

(** ** The normalisation hook *)

(** Where the hook returns, its value is what [synth] returns, in place of
    the routine's. *)
Theorem synth_returns_normalized
    (fs : string -> outcome (option ModuleSpec)) (G : Globals) (between : list other_task)
    (text : string) (cancel : option CancellationToken) (self : PiperTTS)
    (normalize : PcmAudio -> outcome PcmAudio) (pcm out : PcmAudio) :
  _require_piper fs = Returned tt ->
  normalize_to_canon G = Some normalize ->
  _synth_blocking (seen_by_routine between self) text cancel = Returned pcm ->
  normalize pcm = Returned out ->
  result (synth fs G between text cancel self) = Returned out /\
  calls (synth fs G between text cancel self)
    = [to_thread_synth (seen_by_routine between self) text cancel; normalize_call pcm].
Proof.
  intros Hok Hn Hraw Hout.
  rewrite synth_available by assumption. cbv zeta.
  rewrite Hraw, Hn. unfold result, calls; cbn [fst snd].
  rewrite Hout. split; reflexivity.
Qed.

Lemma synth_returns_normalized_witness :
  (_require_piper Scenario.piper_installed = Returned tt /\
   normalize_to_canon Scenario.hook_16k = Some Scenario.resample_16k /\
   _synth_blocking (seen_by_routine [other_stop] (Scenario.adapter 22050)) "hallo" None
     = Returned (empty_pcm 22050) /\
   Scenario.resample_16k (empty_pcm 22050) = Returned (empty_pcm 16000)) /\
  result (synth Scenario.piper_installed Scenario.hook_16k [other_stop] "hallo" None
            (Scenario.adapter 22050)) = Returned (empty_pcm 16000).
Proof.
  split; [repeat split|].
  exact (proj1 (synth_returns_normalized Scenario.piper_installed Scenario.hook_16k
                  [other_stop] "hallo" None (Scenario.adapter 22050)
                  Scenario.resample_16k (empty_pcm 22050) (empty_pcm 16000)
                  eq_refl eq_refl eq_refl eq_refl)).
Defined.

(** What the hook raises outside [Exception] (a [KeyboardInterrupt], a
    cancellation) is not swallowed: [synth] raises it. *)
Theorem synth_propagates_non_Exception
    (fs : string -> outcome (option ModuleSpec)) (G : Globals) (between : list other_task)
    (text : string) (cancel : option CancellationToken) (self : PiperTTS)
    (normalize : PcmAudio -> outcome PcmAudio) (pcm : PcmAudio) (e : exn) :
  _require_piper fs = Returned tt ->
  normalize_to_canon G = Some normalize ->
  _synth_blocking (seen_by_routine between self) text cancel = Returned pcm ->
  normalize pcm = Raised e ->
  is_Exception e = false ->
  result (synth fs G between text cancel self) = Raised e.
Proof.
  intros Hok Hn Hraw Hfail He.
  rewrite synth_available by assumption. cbv zeta.
  rewrite Hraw, Hn. unfold result; cbn [fst].
  rewrite Hfail. cbn. rewrite He. reflexivity.
Qed.

Lemma synth_propagates_non_Exception_witness :
  (_require_piper Scenario.piper_installed = Returned tt /\
   _synth_blocking (seen_by_routine [other_stop] (Scenario.adapter 22050)) "hallo" None
     = Returned (empty_pcm 22050) /\
   is_Exception (Exn KeyboardInterrupt "") = false) /\
  result (synth Scenario.piper_installed
            {| normalize_to_canon := Some (fun _ => Raised (Exn KeyboardInterrupt ""));
               CANON_FORMAT := None |}
            [other_stop] "hallo" None (Scenario.adapter 22050))
    = Raised (Exn KeyboardInterrupt "").
Proof.
  split; [repeat split|].
  exact (synth_propagates_non_Exception Scenario.piper_installed
           {| normalize_to_canon := Some (fun _ => Raised (Exn KeyboardInterrupt ""));
              CANON_FORMAT := None |}
           [other_stop] "hallo" None (Scenario.adapter 22050)
           (fun _ => Raised (Exn KeyboardInterrupt "")) (empty_pcm 22050)
           (Exn KeyboardInterrupt "") eq_refl eq_refl eq_refl eq_refl eq_refl).
Defined.

(** ** Loading the module *)

(** An import that raises does so at line 7, or with something that is not
    an [Exception]: no [Exception] of the optional parts gets out. *)
Theorem import_raises_only_from_types (I : Imports) (e : exn) :
  import_module I = Raised e ->
  import_types I = Raised e \/ is_Exception e = false.
Proof.
  unfold import_module, optional_convert, registration.
  destruct (import_types I) as [[]|e0]; cbn [Py.bind]; [|intros [= ->]; now left].
  destruct (import_convert I) as [[normalize canon]|e1]; cbn.
  - destruct (registration_body I) as [F|e2]; cbn; [discriminate|].
    destruct (is_Exception e2) eqn:He; cbn; [discriminate|].
    intros [= <-]. now right.
  - destruct (is_Exception e1) eqn:He1; cbn; [|intros [= <-]; now right].
    destruct (registration_body I) as [F|e2]; cbn; [discriminate|].
    destruct (is_Exception e2) eqn:He; cbn; [discriminate|].
    intros [= <-]. now right.
Qed.

Lemma import_raises_only_from_types_witness :
  import_module Scenario.no_auicommon
    = Raised (Exn ModuleNotFoundError "No module named 'auicommon'") /\
  (import_types Scenario.no_auicommon
     = Raised (Exn ModuleNotFoundError "No module named 'auicommon'") \/
   is_Exception (Exn ModuleNotFoundError "No module named 'auicommon'") = false).
Proof.
  split; [reflexivity|].
  exact (import_raises_only_from_types Scenario.no_auicommon _ eq_refl).
Defined.

(** Without the conversion helpers the loaded module has no hook, and its
    [synth] returns just what the blocking routine produced. *)
Theorem synth_without_convert_helpers
    (I : Imports) (G : Globals) (F : option Factory) (e : exn)
    (fs : string -> outcome (option ModuleSpec)) (between : list other_task)
    (text : string) (cancel : option CancellationToken) (self : PiperTTS) :
  import_module I = Returned (G, F) ->
  import_convert I = Raised e ->
  _require_piper fs = Returned tt ->
  normalize_to_canon G = None /\ CANON_FORMAT G = None /\
  result (synth fs G between text cancel self)
    = _synth_blocking (seen_by_routine between self) text cancel.
Proof.
  intros Hload Hconv Hok.
  assert (HG : G = {| normalize_to_canon := None; CANON_FORMAT := None |}).
  { revert Hload. unfold import_module, optional_convert. rewrite Hconv.
    destruct (import_types I) as [[]|e0]; cbn; [|discriminate].
    destruct (is_Exception e); cbn; [|discriminate].
    destruct (registration I) as [F'|e']; cbn; [|discriminate].
    intros [= <- _]. reflexivity. }
  subst G. split; [reflexivity|]. split; [reflexivity|].
  rewrite synth_available by assumption. cbv zeta.
  destruct (_synth_blocking (seen_by_routine between self) text cancel); reflexivity.
Qed.

Lemma synth_without_convert_helpers_witness :
  (import_module (Scenario.with_registry ∅)
     = Returned (Scenario.no_hook,
                 Some {| register := None;
                         REGISTRY := Some (dict (<["piper" := lambda_PiperTTS]> ∅)) |}) /\
   import_convert (Scenario.with_registry ∅)
     = Raised (Exn ImportError "cannot import name 'normalize_to_canon'") /\
   _require_piper Scenario.piper_installed = Returned tt) /\
  result (synth Scenario.piper_installed Scenario.no_hook [] "hallo" None
            (Scenario.adapter 22050))
    = _synth_blocking (seen_by_routine [] (Scenario.adapter 22050)) "hallo" None.
Proof.
  split; [repeat split|].
  exact (proj2 (proj2 (synth_without_convert_helpers (Scenario.with_registry ∅)
                         Scenario.no_hook _ _ Scenario.piper_installed []
                         "hallo" None (Scenario.adapter 22050)
                         eq_refl eq_refl eq_refl))).
Defined.

(** Registration into a [dict]: afterwards "piper" maps to the lambda,
    whatever was there before, every other key is as it was, and a registry
    that already holds the lambda is unchanged (loading twice is harmless). *)
Theorem registration_into_dict (I : Imports) (m : gmap string ctor) :
  import_factory I = Returned {| register := None; REGISTRY := Some (dict m) |} ->
  registration I
    = Returned (Some {| register := None;
                        REGISTRY := Some (dict (<["piper" := lambda_PiperTTS]> m)) |}) /\
  (<["piper" := lambda_PiperTTS]> m) !! "piper" = Some lambda_PiperTTS /\
  (forall k, k <> "piper" -> (<["piper" := lambda_PiperTTS]> m) !! k = m !! k) /\
  (m !! "piper" = Some lambda_PiperTTS -> <["piper" := lambda_PiperTTS]> m = m).
Proof.
  intros Hf. split.
  - unfold registration, registration_body. rewrite Hf. reflexivity.
  - split; [apply lookup_insert_eq|]. split.
    + intros k Hk. apply lookup_insert_ne. congruence.
    + apply insert_id.
Qed.

Lemma registration_into_dict_witness :
  import_factory (Scenario.with_registry {["piper" := foreign "old"]})
    = Returned {| register := None;
                  REGISTRY := Some (dict {["piper" := foreign "old"]}) |} /\
  (<["piper" := lambda_PiperTTS]> ({["piper" := foreign "old"]} : gmap string ctor))
    !! "piper" = Some lambda_PiperTTS.
Proof.
  split; [reflexivity|].
  exact (proj1 (proj2 (registration_into_dict
                         (Scenario.with_registry {["piper" := foreign "old"]})
                         {["piper" := foreign "old"]} eq_refl))).
Defined.



(** ** Sequences of calls on the adapter *)

Import Session.

Lemma say_runs_synth (fs : string -> outcome (option ModuleSpec)) (G : Globals)
    (between : list other_task) (text : string)
    (cancel : option CancellationToken) (self : PiperTTS) :
  after (say fs G between text cancel self) = after (synth fs G between text cancel self) /\
  calls (say fs G between text cancel self) = calls (synth fs G between text cancel self).
Proof.
  unfold say. destruct (synth fs G between text cancel self) as [[r s] c].
  split; reflexivity.
Qed.

Lemma synth_after_fields (fs : string -> outcome (option ModuleSpec)) (G : Globals)
    (between : list other_task) (text : string)
    (cancel : option CancellationToken) (self : PiperTTS) :
  after (synth fs G between text cancel self)
    = set_stopped (_stopped (after (synth fs G between text cancel self))) self.
Proof.
  destruct (require_piper_cases fs) as [Hok|Hno].
  - rewrite synth_available by assumption. cbv zeta.
    assert (H : forall (r : outcome PcmAudio) (c : list call),
               after (r, seen_by_routine between self, c)
               = set_stopped (_stopped (after (r, seen_by_routine between self, c))) self).
    { intros r c. unfold after; cbn [fst snd]. apply seen_by_routine_fields. }
    destruct (_synth_blocking (seen_by_routine between self) text cancel);
      [destruct (normalize_to_canon G)|]; apply H.
  - destruct Hno as [e Hno]. unfold synth. rewrite Hno. unfold after; cbn [fst snd].
    symmetry. apply set_stopped_same.
Qed.

(** One call changes the stop flag at most and never plays. *)
Lemma perform_keeps_configuration (fs : string -> outcome (option ModuleSpec)) (G : Globals)
    (o : op) (self : PiperTTS) :
  fst (perform fs G o self) = set_stopped (_stopped (fst (perform fs G o self))) self /\
  existsb is_sink_play (snd (perform fs G o self)) = false.
Proof.
  destruct o as [|b t c|b t c|]; cbn [perform fst snd].
  - unfold preload. destruct (_require_piper fs); cbn; split;
      solve [reflexivity | symmetry; apply set_stopped_same].
  - split; [apply synth_after_fields|].
    apply made_by_synth_no_playback with t c, synth_calls.
  - destruct (say_runs_synth fs G b t c self) as [-> ->].
    split; [apply synth_after_fields|].
    apply made_by_synth_no_playback with t c, synth_calls.
  - split; reflexivity.
Qed.

(** Whatever the caller does with the adapter, in whatever order and
    whatever fails: model, voice, rate, keyword arguments and the engine
    handle stay as the constructor set them, only the stop flag changes,
    and no call ever goes to a playback primitive. *)
Theorem session_keeps_configuration
    (fs : string -> outcome (option ModuleSpec)) (G : Globals) (ops : list op) (self : PiperTTS) :
  fst (session fs G ops self) = set_stopped (_stopped (fst (session fs G ops self))) self /\
  _model (fst (session fs G ops self)) = _model self /\
  _voice (fst (session fs G ops self)) = _voice self /\
  _rate (fst (session fs G ops self)) = _rate self /\
  _kw (fst (session fs G ops self)) = _kw self /\
  _engine (fst (session fs G ops self)) = _engine self /\
  existsb is_sink_play (snd (session fs G ops self)) = false.
Proof.
  assert (H : fst (session fs G ops self)
              = set_stopped (_stopped (fst (session fs G ops self))) self /\
              existsb is_sink_play (snd (session fs G ops self)) = false).
  { revert self. induction ops as [|o ops IH]; intros self.
    - cbn. split; [symmetry; apply set_stopped_same | reflexivity].
    - cbn [session].
      destruct (perform_keeps_configuration fs G o self) as [Hs1 Hc1].
      destruct (perform fs G o self) as [s1 c1]. cbn [fst snd] in Hs1, Hc1.
      destruct (IH s1) as [Hs2 Hc2].
      destruct (session fs G ops s1) as [s2 c2]. cbn [fst snd] in *.
      split.
      + rewrite Hs2 at 1. rewrite Hs1. reflexivity.
      + rewrite existsb_app, Hc1, Hc2. reflexivity. }
  destruct H as [Hs Hc]. split; [exact Hs|].
  repeat split; try exact Hc; rewrite Hs; reflexivity.
Qed.

(** [preload] keeps no record of having run: with the engine installed, [n]
    calls start the initialisation [n] times and leave the receiver, its
    engine handle included, as it was. *)
Theorem preload_is_not_memoized
    (fs : string -> outcome (option ModuleSpec)) (G : Globals) (n : nat) (self : PiperTTS) :
  _require_piper fs = Returned tt ->
  session fs G (repeat op_preload n) self = (self, repeat (to_thread_init self) n).
Proof.
  intros Hok. induction n as [|n IH]; [reflexivity|].
  cbn [repeat session perform]. unfold preload. rewrite Hok.
  unfold after, calls, _init_blocking; cbn [fst snd].
  rewrite IH. reflexivity.
Qed.

Lemma preload_is_not_memoized_witness :
  _require_piper Scenario.piper_installed = Returned tt /\
  session Scenario.piper_installed Scenario.no_hook [op_preload; op_preload]
          (Scenario.adapter 22050)
    = (Scenario.adapter 22050,
       [to_thread_init (Scenario.adapter 22050); to_thread_init (Scenario.adapter 22050)]).
Proof.
  split; [reflexivity|].
  exact (preload_is_not_memoized Scenario.piper_installed Scenario.no_hook 2
           (Scenario.adapter 22050) eq_refl).
Defined.

(** ** Sequences of calls on the stub *)

Lemma say_line_is_not_stop_line (text : string) :
  ("[Piper] say: " ++ text)%string <> "[Piper] stop".
Proof. intros H. discriminate H. Qed.

Lemma stub_perform_counts (o : stub_op) (self : Stub.PiperTTS) :
  (stop_notices (snd (stub_perform o self))
   + flag_weight (Stub._speaking (fst (stub_perform o self)))
   <= flag_weight (is_stub_say o) + flag_weight (Stub._speaking self))%nat /\
  length (snd (stub_perform o self))
    = (flag_weight (is_stub_say o) + stop_notices (snd (stub_perform o self)))%nat.
Proof.
  destruct o as [text|]; cbn [stub_perform is_stub_say].
  - unfold Stub.say, stop_notices; cbn [fst snd Stub._speaking].
    rewrite count_occ_cons_neq by apply say_line_is_not_stop_line.
    cbn. split; lia.
  - unfold Stub.stop, stop_notices. destruct (Stub._speaking self); cbn; split; lia.
Qed.

(** The stub never announces more stops than it was told to speak: over any
    sequence of calls, starting idle, [stop] prints its notification at
    most as often as [say] was called, and [print] is called once for each
    [say] and once for each notification, never otherwise. *)
Theorem stub_stop_notices_bounded (ops : list stub_op) (self : Stub.PiperTTS) :
  (stop_notices (snd (stub_session ops self))
   + flag_weight (Stub._speaking (fst (stub_session ops self)))
   <= say_count ops + flag_weight (Stub._speaking self))%nat /\
  length (snd (stub_session ops self))
    = (say_count ops + stop_notices (snd (stub_session ops self)))%nat /\
  (stop_notices (snd (stub_session ops Stub.__init__)) <= say_count ops)%nat.
Proof.
  assert (H : forall s : Stub.PiperTTS,
             (stop_notices (snd (stub_session ops s))
              + flag_weight (Stub._speaking (fst (stub_session ops s)))
              <= say_count ops + flag_weight (Stub._speaking s))%nat /\
             length (snd (stub_session ops s))
             = (say_count ops + stop_notices (snd (stub_session ops s)))%nat).
  { induction ops as [|o ops IH]; intros s.
    - cbn. split; lia.
    - cbn [stub_session].
      destruct (stub_perform_counts o s) as [Hb1 Hl1].
      destruct (stub_perform o s) as [s1 l1]. cbn [fst snd] in Hb1, Hl1.
      destruct (IH s1) as [Hb2 Hl2].
      destruct (stub_session ops s1) as [s2 l2]. cbn [fst snd] in *.
      assert (Hsay : say_count (o :: ops) = (flag_weight (is_stub_say o) + say_count ops)%nat).
      { unfold say_count. cbn [List.filter]. destruct (is_stub_say o); reflexivity. }
      unfold stop_notices in *. rewrite count_occ_app, length_app, Hsay.
      split; lia. }
  destruct (H self) as [Hb Hl]. split; [exact Hb|]. split; [exact Hl|].
  destruct (H Stub.__init__) as [Hb0 _]. cbn [Stub.__init__ Stub._speaking flag_weight] in Hb0.
  lia.
Qed.

(** After any non-empty sequence of calls the stub is speaking exactly when
    the last call was a [say]; after none it is as before. *)
Theorem stub_flag_follows_last_call (ops : list stub_op) (self : Stub.PiperTTS) :
  Stub._speaking (fst (stub_session ops self))
    = is_stub_say (List.last ops (if Stub._speaking self then stub_say "" else stub_stop)).
Proof.
  revert self. induction ops as [|o ops IH]; intros self.
  - cbn. destruct (Stub._speaking self); reflexivity.
  - cbn [stub_session].
    destruct (stub_perform o self) as [s1 l1] eqn:E1.
    specialize (IH s1). destruct (stub_session ops s1) as [s2 l2]. cbn [fst] in *.
    rewrite IH. destruct ops as [|o' ops].
    + cbn. destruct o; cbn in E1; injection E1 as <- _; reflexivity.
    + change (List.last (o :: o' :: ops)
                (if Stub._speaking self then stub_say "" else stub_stop))
        with (List.last (o' :: ops)
                (if Stub._speaking self then stub_say "" else stub_stop)).
      f_equal. apply last_cons_default.
Qed.
